(** * next-supabase-saas-starter: the guided setup script and the session
      middleware, embedded and verified

    Sources embedded here:
    - [src/lib/db/setup.ts]            (module [Setup])
    - the Supabase key helper          (module [Supabase], [getSupabaseKeys])
    - [src/utils/supabase/middleware.ts] (module [Supabase], [updateSession])

    The setup script talks to three things it does not control: the Stripe
    command line tool, the operator at the terminal and the file system.
    They are gathered in a record [Env] of oracles; the script itself is a
    computation in a small monad that threads the [World] (what has been
    printed, run, asked and written so far) and ends by returning, by
    throwing, or by [process.exit]. *)

From Stdlib Require Import ZArith Lia Ascii.
From stdpp Require Import base strings list gmap.

Local Open Scope Z_scope.
Local Open Scope stdpp_scope.

(** ** JavaScript string operations used by the sources *)

Module JS.

(** A double quote and a line feed, for the literals that contain one. *)
Definition dq : string := String (ascii_of_nat 34) EmptyString.
Definition LF : ascii := ascii_of_nat 10.
Definition CR : ascii := ascii_of_nat 13.
Definition nl : string := String LF EmptyString.

Definition is_upper (c : ascii) : bool :=
  let n := nat_of_ascii c in ((65 <=? n) && (n <=? 90))%nat.

Definition is_lower (c : ascii) : bool :=
  let n := nat_of_ascii c in ((97 <=? n) && (n <=? 122))%nat.

Definition is_digit (c : ascii) : bool :=
  let n := nat_of_ascii c in ((48 <=? n) && (n <=? 57))%nat.

(** The character class [[a-zA-Z0-9]]. *)
Definition is_alnum (c : ascii) : bool :=
  is_lower c || is_upper c || is_digit c.

Definition lower_char (c : ascii) : ascii :=
  if is_upper c then ascii_of_nat (nat_of_ascii c + 32) else c.

(** [s.toLowerCase()].  Only the letters A-Z are mapped; the scripts compare
    the result with the ASCII tokens [y], [n] and [continue], which no
    other character lowers to. *)
Fixpoint toLowerCase (s : string) : string :=
  match s with
  | EmptyString => EmptyString
  | String c r => String (lower_char c) (toLowerCase r)
  end.

(** [s.startsWith(p)] *)
Definition startsWith (s p : string) : bool := String.prefix p s.

(** [a === b] on strings, and its negation [a !== b]. *)
Definition strict_eq (a b : string) : bool := String.eqb a b.
Definition strict_ne (a b : string) : bool := negb (String.eqb a b).

(** [!s] for a value that is a string or [undefined]. *)
Definition falsy (v : option string) : bool :=
  match v with
  | None => true
  | Some s => String.eqb s ""
  end.

(** A string without line terminators. *)
Fixpoint single_line (s : string) : bool :=
  match s with
  | EmptyString => true
  | String c r => negb (Ascii.eqb c LF) && negb (Ascii.eqb c CR) && single_line r
  end.

(** [!v] for a value that is an object or [null]. *)
Definition is_null {A} (v : option A) : bool :=
  match v with
  | None => true
  | Some _ => false
  end.

(** [xs.join(sep)] *)
Definition join (sep : string) (xs : list string) : string :=
  String.concat sep xs.

(** [s.split(LF)]: the lines of a text. *)
Fixpoint lines (s : string) : list string :=
  match s with
  | EmptyString => [EmptyString]
  | String c r =>
      if Ascii.eqb c LF then EmptyString :: lines r
      else match lines r with
           | l :: ls => String c l :: ls
           | [] => [String c EmptyString]
           end
  end.

(** *** The regular expression [/whsec_[a-zA-Z0-9]+/]

    [s.match(re)] with a regular expression that has no [g] flag tries the
    start positions from left to right; at a position the literal [whsec_]
    must be read, then the greedy [+] takes the longest run of class
    characters, which must not be empty. *)

Fixpoint take_alnum (s : string) : string :=
  match s with
  | EmptyString => EmptyString
  | String c r => if is_alnum c then String c (take_alnum r) else EmptyString
  end.

Fixpoint drop (n : nat) (s : string) : string :=
  match n, s with
  | O, _ => s
  | S n', String _ r => drop n' r
  | S _, EmptyString => EmptyString
  end.

Definition whsec : string := "whsec_".

Definition match_here (s : string) : option string :=
  if String.prefix whsec s then
    match take_alnum (drop 6 s) with
    | EmptyString => None
    | run => Some (whsec +:+ run)
    end
  else None.

(** [s.match(/whsec_[a-zA-Z0-9]+/)]: [None] is JavaScript's [null], [Some m]
    is the match array, of which only [m[0]] is used. *)
Fixpoint match_whsec (s : string) : option string :=
  match match_here s with
  | Some m => Some m
  | None =>
      match s with
      | EmptyString => None
      | String _ r => match_whsec r
      end
  end.

(** *** Vocabulary of the statements about the pattern *)

Fixpoint all_alnum (s : string) : bool :=
  match s with
  | EmptyString => true
  | String c r => is_alnum c && all_alnum r
  end.

Definition starts_alnum (s : string) : bool :=
  match s with
  | EmptyString => false
  | String c _ => is_alnum c
  end.

(** [t] matches the pattern: [whsec_] and then one or more characters of
    the class. *)
Definition is_token (t : string) : Prop :=
  exists run, t = whsec +:+ run /\ run <> EmptyString /\ all_alnum run = true.

(** The text [s] has [t] right after its prefix [pre]. *)
Definition occurs_at (pre t s : string) : Prop :=
  exists post, s = pre +:+ t +:+ post.

(** No match of the pattern starts in [s] before the end of [pre]. *)
Definition first_at (pre s : string) : Prop :=
  forall pre' t', is_token t' -> occurs_at pre' t' s ->
    (String.length pre <= String.length pre')%nat.

(** A check of [first_at] that can be run: no match starts at any of the
    first [n] positions of [s]. *)
Fixpoint no_match_before (n : nat) (s : string) : bool :=
  match n with
  | O => true
  | S n' =>
      match match_here s with
      | Some _ => false
      | None =>
          match s with
          | EmptyString => true
          | String _ r => no_match_before n' r
          end
      end
  end.

End JS.

(** ** src/lib/db/setup.ts *)

Module Setup.
Import JS.

(** What [execAsync] resolves to. *)
Record ExecOutput := { stdout : string; stderr : string }.

(** Values that are thrown (promise rejections). *)
Inductive Error :=
| JsError (message : string)            (* [new Error(message)] *)
| ExecFailure (cmd : string) (code : Z) (* rejection of [execAsync] *)
| WriteFailure.                         (* rejection of [fs.writeFile] *)

(** Everything the script does that can be seen from outside, in the
    order it happens. *)
Inductive Event :=
| ConsoleLog (msg : string)
| ConsoleError (msg : string)
| ConsoleErrorValue (e : Error)
| Exec (cmd : string)
| Question (query answer : string)
| WriteFile (data : string).

(** What [readline] hands to the callback of [rl.question]: one line of
    input, without its line terminator. *)
Record Line := { text : string; text_single_line : single_line text = true }.

(** The surroundings of one run.  The [n]-th call of [execAsync] with
    command [cmd] resolves with [inl out] or rejects with exit code
    [inr code]; the [n]-th call of [question] with text [q] is answered
    [answer n q]; [write_fails old data] is [None] when writing [data] over
    [old] succeeds and [Some residue] when it fails, leaving [residue]. *)
Record Env := {
  exec_result : nat -> string -> ExecOutput + Z;
  answer : nat -> string -> Line;
  platform : string;
  write_fails : option string -> string -> option (option string)
}.

(** [trace]: the events so far, the latest first.  [dotenv]: the content of
    the file [.env] of the working directory, if there is one. *)
Record World := { trace : list Event; dotenv : option string }.

Inductive Outcome (A : Type) :=
| Ret (a : A)
| Throw (e : Error)
| Exit (code : Z).
Arguments Ret {A} a.
Arguments Throw {A} e.
Arguments Exit {A} code.

Definition M (A : Type) : Type := World -> Outcome A * World.

#[global] Instance M_ret : MRet M := fun A a w => (Ret a, w).

#[global] Instance M_bind : MBind M := fun A B k m w =>
  match m w with
  | (Ret a, w') => k a w'
  | (Throw e, w') => (Throw e, w')
  | (Exit c, w') => (Exit c, w')
  end.

(** [throw e] *)
Definition throw {A} (e : Error) : M A := fun w => (Throw e, w).

(** [try { body } catch (error) { handler }]: [process.exit] is not an
    exception and is not caught. *)
Definition try_catch {A} (body : M A) (handler : Error -> M A) : M A :=
  fun w =>
    match body w with
    | (Throw e, w') => handler e w'
    | r => r
    end.

Definition emit (ev : Event) : M unit :=
  fun w => (Ret tt, {| trace := ev :: trace w; dotenv := dotenv w |}).

Definition console_log (msg : string) : M unit := emit (ConsoleLog msg).
Definition console_error (msg : string) : M unit := emit (ConsoleError msg).

(** [process.exit(code)] *)
Definition process_exit {A} (code : Z) : M A := fun w => (Exit code, w).

Definition is_exec (ev : Event) : bool :=
  match ev with Exec _ => true | _ => false end.
Definition is_question (ev : Event) : bool :=
  match ev with Question _ _ => true | _ => false end.
Definition is_write (ev : Event) : bool :=
  match ev with WriteFile _ => true | _ => false end.

Fixpoint count (p : Event -> bool) (t : list Event) : nat :=
  match t with
  | [] => 0
  | ev :: r => ((if p ev then 1 else 0) + count p r)%nat
  end.

Section Script.
Context (env : Env).

(** [execAsync(cmd)] *)
Definition execAsync (cmd : string) : M ExecOutput :=
  fun w =>
    let w' := {| trace := Exec cmd :: trace w; dotenv := dotenv w |} in
    match exec_result env (count is_exec (trace w)) cmd with
    | inl out => (Ret out, w')
    | inr code => (Throw (ExecFailure cmd code), w')
    end.

(** [question(query)], lines 10-22: one line read from the operator. *)
Definition question (query : string) : M string :=
  fun w =>
    let ans := text (answer env (count is_question (trace w)) query) in
    (Ret ans, {| trace := Question query ans :: trace w; dotenv := dotenv w |}).

(** [fs.writeFile(path.join(process.cwd(), '.env'), data)] *)
Definition writeFile_dotenv (data : string) : M unit :=
  fun w =>
    let t := WriteFile data :: trace w in
    match write_fails env (dotenv w) data with
    | None => (Ret tt, {| trace := t; dotenv := Some data |})
    | Some residue => (Throw WriteFailure, {| trace := t; dotenv := residue |})
    end.

(** Lines 24-77. *)
Definition checkStripeCLI : M unit :=
  console_log "Step 1: Checking if Stripe CLI is installed and authenticated...";;
  try_catch
    (execAsync "stripe --version";;
     console_log "Stripe CLI is installed.";;
     try_catch
       (execAsync "stripe config --list";;
        console_log "Stripe CLI is authenticated.")
       (fun _ =>
          console_log "Stripe CLI is not authenticated or the authentication has expired.";;
          console_log "Please run: stripe login";;
          answer ← question "Have you completed the authentication? (y/n): ";
          (if strict_ne (toLowerCase answer) "y" then
             console_log "Please authenticate with Stripe CLI and run this script again.";;
             process_exit 1
           else mret tt);;
          try_catch
            (execAsync "stripe config --list";;
             console_log "Stripe CLI authentication confirmed.")
            (fun _ =>
               console_error "Failed to verify Stripe CLI authentication. Please try again.";;
               process_exit 1)))
    (fun _ =>
       console_error "Stripe CLI is not installed. Please install it and try again.";;
       console_log "To install Stripe CLI, follow these steps:";;
       console_log "1. Visit: https://docs.stripe.com/stripe-cli";;
       console_log "2. Download and install the Stripe CLI for your operating system";;
       console_log "3. After installation, run: stripe login";;
       console_log "After installation and authentication, please run this setup script again.";;
       process_exit 1).

(** Lines 79-85. *)
Definition getStripeSecretKey : M string :=
  console_log (nl +:+ "Step 2: Getting Stripe Secret Key");;
  console_log "You can find your Stripe Secret Key at: https://dashboard.stripe.com/test/apikeys";;
  question "Enter your Stripe Secret Key: ".

(** Lines 87-108.  The [throw] of line 93 is inside the [try], so it passes
    through the [catch] of line 97 like a failure of the command. *)
Definition createStripeWebhookSecret : M string :=
  console_log (nl +:+ "Step 3: Creating Stripe webhook secret...");;
  try_catch
    (out ← execAsync "stripe listen --print-secret";
     match match_whsec (stdout out) with
     | None => throw (JsError "Failed to extract Stripe webhook secret")
     | Some m =>
         console_log "Stripe webhook secret created.";;
         mret m
     end)
    (fun error =>
       console_error "Failed to create Stripe webhook secret. Check your Stripe CLI installation and permissions.";;
       (if strict_eq (platform env) "win32" then
          console_log "Note: On Windows, you may need to run this script as an administrator."
        else mret tt);;
       throw error).

(** Lines 110-132. *)
Definition checkSupabaseProject : M unit :=
  console_log (nl +:+ "Step 4: Checking Supabase Project Setup");;
  hasProject ← question "Do you already have a Supabase project? (y/n): ";
  if strict_eq (toLowerCase hasProject) "n" then
    console_log "You can create a new Supabase project at: https://database.new";;
    answer ← question ("Type " +:+ dq +:+ "continue" +:+ dq +:+ " when you have created your project: ");
    if strict_ne (toLowerCase answer) "continue" then
      answer ← question ("Please type " +:+ dq +:+ "continue" +:+ dq +:+ " when you have created your project: ");
      if strict_ne (toLowerCase answer) "continue" then
        console_error "Setup cancelled. Please create a Supabase project and try again.";;
        process_exit 1
      else mret tt
    else mret tt
  else if strict_eq (toLowerCase hasProject) "y" then
    console_log "Great! Continuing with existing Supabase project..."
  else
    console_error ("Invalid input. Please enter " +:+ dq +:+ "y" +:+ dq +:+ " or " +:+ dq +:+ "n" +:+ dq +:+ ".");;
    process_exit 1.

(** Lines 134-148. *)
Definition getSupabaseKeysApiUrl : M string :=
  console_log (nl +:+ "Step 5: Getting Supabase Keys");;
  console_log "You can find your Supabase Keys at: supabase.com/dashboard/project/<project-id>/settings/api";;
  question "Enter your Supabase API Url: ".

Definition getSupabaseKeysAnonKey : M string :=
  question "Enter your Supabase Anon Key: ".

Definition getSupabaseKeysServiceRoleKey : M string :=
  question "Enter your Supabase Service Role Key: ".

(** The template literal of line 154. *)
Definition render_entry (entry : string * string) : string :=
  fst entry +:+ "=" +:+ snd entry.

(** Lines 151-159.  [envVars] is an object whose keys are not array indices,
    so [Object.entries] lists them in the order they were written in the
    literal: an association list. *)
Definition writeEnvFile (envVars : list (string * string)) : M unit :=
  console_log "Step 6: Writing environment variables to .env";;
  let envContent := join nl (map render_entry envVars) in
  writeFile_dotenv envContent;;
  console_log ".env file created with the necessary variables.".

(** Lines 161-182. *)
Definition main : M unit :=
  checkStripeCLI;;
  STRIPE_SECRET_KEY ← getStripeSecretKey;
  STRIPE_WEBHOOK_SECRET ← createStripeWebhookSecret;
  checkSupabaseProject;;
  NEXT_PUBLIC_SUPABASE_URL ← getSupabaseKeysApiUrl;
  NEXT_PUBLIC_SUPABASE_ANON_KEY ← getSupabaseKeysAnonKey;
  SUPABASE_SERVICE_ROLE_KEY ← getSupabaseKeysServiceRoleKey;
  let BASE_URL := "http://localhost:3000" in
  writeEnvFile
    [ ("STRIPE_SECRET_KEY", STRIPE_SECRET_KEY);
      ("STRIPE_WEBHOOK_SECRET", STRIPE_WEBHOOK_SECRET);
      ("NEXT_PUBLIC_SUPABASE_URL", NEXT_PUBLIC_SUPABASE_URL);
      ("NEXT_PUBLIC_SUPABASE_ANON_KEY", NEXT_PUBLIC_SUPABASE_ANON_KEY);
      ("SUPABASE_SERVICE_ROLE_KEY", SUPABASE_SERVICE_ROLE_KEY);
      ("BASE_URL", BASE_URL) ];;
  console_log "🎉 Setup completed successfully!".

(** Line 184, [main().catch(console.error)], and the end of the process.
    A rejection of [main] is handled by printing it, after which nothing
    is left to do and the process ends with the default status 0;
    [process.exit(code)] ends it at once with status [code]. *)
Definition run (w : World) : Z * World :=
  match main w with
  | (Ret _, w') => (0, w')
  | (Throw e, w') =>
      (0, {| trace := ConsoleErrorValue e :: trace w'; dotenv := dotenv w' |})
  | (Exit code, w') => (code, w')
  end.

End Script.

(** The events of a run in the order they happened. *)
Definition history (w : World) : list Event := reverse (trace w).

Definition start : World := {| trace := []; dotenv := None |}.

(** *** Vocabulary of the statements *)

(** [since w w' evs]: from [w] to [w'] exactly the events [evs] happened
    (the latest first). *)
Definition since (w w' : World) (evs : list Event) : Prop :=
  trace w' = evs ++ trace w.

(** Nothing was written between [w] and [w']: no call of [fs.writeFile],
    and the file is as it was. *)
Definition no_write (w w' : World) : Prop :=
  dotenv w' = dotenv w /\ exists evs, since w w' evs /\ count is_write evs = 0%nat.

(** The calls of [execAsync] and of [question] made so far. *)
Definition execs (w : World) : nat := count is_exec (trace w).
Definition asked (w : World) : nat := count is_question (trace w).

(** Runs of the authentication probe. *)
Definition is_probe (ev : Event) : bool :=
  match ev with
  | Exec cmd => String.eqb cmd "stripe config --list"
  | _ => false
  end.

(** The texts of the prompts. *)
Definition ask_authenticated : string :=
  "Have you completed the authentication? (y/n): ".
Definition ask_secret_key : string := "Enter your Stripe Secret Key: ".
Definition ask_project : string :=
  "Do you already have a Supabase project? (y/n): ".
Definition ask_continue : string :=
  "Type " +:+ dq +:+ "continue" +:+ dq +:+ " when you have created your project: ".
Definition ask_continue_again : string :=
  "Please type " +:+ dq +:+ "continue" +:+ dq +:+ " when you have created your project: ".
Definition ask_api_url : string := "Enter your Supabase API Url: ".
Definition ask_anon_key : string := "Enter your Supabase Anon Key: ".
Definition ask_role_key : string := "Enter your Supabase Service Role Key: ".

(** The prompts with text [q]. *)
Definition asks (q : string) (ev : Event) : bool :=
  match ev with
  | Question q' _ => String.eqb q' q
  | _ => false
  end.

(** The error of line 93. *)
Definition extraction_error : Error :=
  JsError "Failed to extract Stripe webhook secret".

(** The message of line 129. *)
Definition invalid_input : string :=
  "Invalid input. Please enter " +:+ dq +:+ "y" +:+ dq +:+ " or " +:+ dq +:+ "n" +:+ dq +:+ ".".

(** The object literal of lines 172-179. *)
Definition config (sk wh url anon role : string) : list (string * string) :=
  [ ("STRIPE_SECRET_KEY", sk);
    ("STRIPE_WEBHOOK_SECRET", wh);
    ("NEXT_PUBLIC_SUPABASE_URL", url);
    ("NEXT_PUBLIC_SUPABASE_ANON_KEY", anon);
    ("SUPABASE_SERVICE_ROLE_KEY", role);
    ("BASE_URL", "http://localhost:3000") ].

(** The five steps before the assembly all returned, one after the other
    from [w], with these values, and left the world [w7]. *)
Definition gathered (env : Env) (w : World)
    (sk wh url anon role : string) (w7 : World) : Prop :=
  exists w1 w2 w3 w4 w5 w6,
    checkStripeCLI env w = (Ret tt, w1) /\
    getStripeSecretKey env w1 = (Ret sk, w2) /\
    createStripeWebhookSecret env w2 = (Ret wh, w3) /\
    checkSupabaseProject env w3 = (Ret tt, w4) /\
    getSupabaseKeysApiUrl env w4 = (Ret url, w5) /\
    getSupabaseKeysAnonKey env w5 = (Ret anon, w6) /\
    getSupabaseKeysServiceRoleKey env w6 = (Ret role, w7).

(** The computation did not return: it threw or ended the process. *)
Definition failed {A} (o : Outcome A) : Prop :=
  match o with
  | Ret _ => False
  | _ => True
  end.

(** [respects R m]: running [m] moves the world along the relation [R],
    however [m] ends. *)
Definition respects (R : World -> World -> Prop) {A} (m : M A) : Prop :=
  forall w, R w (snd (m w)).

(** Whenever [m] ends the process, it is with status [code]. *)
Definition exits_only_with (code : Z) {A} (m : M A) : Prop :=
  forall w c w', m w = (Exit c, w') -> c = code.

(** Events were only added. *)
Definition extends (w w' : World) : Prop := exists evs, since w w' evs.

(** [m] adds at most [n] events of the kind [p], however it ends. *)
Definition at_most (p : Event -> bool) (n : nat) {A} (m : M A) : Prop :=
  forall w, exists evs, since w (snd (m w)) evs /\ (count p evs <= n)%nat.

(** What an event counts for the kind [p]. *)
Definition weight (p : Event -> bool) (ev : Event) : nat :=
  if p ev then 1 else 0.

(** Nothing of the kind [p] happened between [w] and [w']. *)
Definition silent (p : Event -> bool) (w w' : World) : Prop :=
  exists evs, since w w' evs /\ count p evs = 0%nat.

(** The lines printed with text [msg]. *)
Definition logs (msg : string) (ev : Event) : bool :=
  match ev with
  | ConsoleLog m => String.eqb m msg
  | _ => false
  end.

(** The messages of lines 103 and 181. *)
Definition windows_note : string :=
  "Note: On Windows, you may need to run this script as an administrator.".

(** The answers that line 44 and line 126 take for a yes, and line 115 for
    a no. *)
Definition says_yes (a : string) : Prop := a = "y" \/ a = "Y".
Definition says_no (a : string) : Prop := a = "n" \/ a = "N".

(** The verifier has what it needs to return: the tool answers
    [--version], and either the first authentication probe succeeds or the
    operator says yes and the second one does. *)
Definition verified (env : Env) (w : World) : Prop :=
  (exists v, exec_result env (execs w) "stripe --version" = inl v) /\
  ((exists v, exec_result env (S (execs w)) "stripe config --list" = inl v) \/
   (says_yes (text (answer env (asked w) ask_authenticated)) /\
    exists v, exec_result env (S (S (execs w))) "stripe config --list" = inl v)).

(** The gate has what it needs to return: a yes, or a no followed by the
    token at the first or at the second confirmation. *)
Definition confirmed (env : Env) (w : World) : Prop :=
  says_yes (text (answer env (asked w) ask_project)) \/
  (says_no (text (answer env (asked w) ask_project)) /\
   (toLowerCase (text (answer env (S (asked w)) ask_continue)) = "continue" \/
    toLowerCase (text (answer env (S (S (asked w))) ask_continue_again))
      = "continue")).

(** The text written by [writeEnvFile], lines 153-155. *)
Definition envContent (envVars : list (string * string)) : string :=
  join nl (map render_entry envVars).

(** The string has no equals sign. *)
Fixpoint eq_free (s : string) : bool :=
  match s with
  | EmptyString => true
  | String c r => negb (Ascii.eqb c "=") && eq_free r
  end.

(** An entry whose key has no equals sign and which fits on a line. *)
Definition plain_entry (entry : string * string) : bool :=
  eq_free (fst entry) && single_line (fst entry) && single_line (snd entry).

End Setup.

(** ** Scripted surroundings, for running the script on examples *)

Module Scenarios.
Import JS Setup.

Definition line (s : string) (H : single_line s = true) : Line :=
  {| text := s; text_single_line := H |}.

Definition empty_line : Line := line "" eq_refl.

(** The [n]-th command gives the [n]-th result of the list; a command past
    the end of the list is not found (status 127). *)
Definition scripted_exec (results : list (ExecOutput + Z))
    (n : nat) (cmd : string) : ExecOutput + Z :=
  nth n results (inr 127).

(** The [n]-th prompt is answered with the [n]-th line of the list. *)
Definition scripted_answers (answers : list Line) (n : nat) (q : string) : Line :=
  nth n answers empty_line.

Definition scenario (results : list (ExecOutput + Z)) (answers : list Line) : Env :=
  {| exec_result := scripted_exec results;
     answer := scripted_answers answers;
     platform := "linux";
     write_fails := fun _ _ => None |}.

Definition ok (out : string) : ExecOutput + Z :=
  inl {| stdout := out; stderr := "" |}.

Definition listen_output : string :=
  "> Ready! Your webhook signing secret is whsec_AbC123 (^C to quit)".

(** The tool is missing. *)
Definition env_not_installed : Env := scenario [inr 127] [].

(** The tool is installed but logged out; the operator logs in, answers
    [Y], and the second probe succeeds. *)
Definition env_login_then_ok : Env :=
  scenario [ok "stripe version 1.21.8"; inr 1; ok "[default]"; ok listen_output]
           [line "Y" eq_refl; line "sk_test_51H" eq_refl].

(** The gate: no project yet, a first confirmation that is not the token,
    then the token. *)
Definition env_gate_second_chance : Env :=
  scenario [] [line "N" eq_refl; line "no" eq_refl; line "Continue" eq_refl].

Definition env_gate_maybe : Env := scenario [] [line "maybe" eq_refl].

(** The gate: no project yet, then the token at the first confirmation. *)
Definition env_gate_first_chance : Env :=
  scenario [] [line "n" eq_refl; line "Continue" eq_refl].

(** A complete run. *)
Definition env_happy : Env :=
  scenario [ok "stripe version 1.21.8"; ok "[default]"; ok listen_output]
           [ line "sk_test_51H" eq_refl; line "y" eq_refl;
             line "https://abc.supabase.co" eq_refl;
             line "anon-key" eq_refl; line "role-key" eq_refl ].

(** The listen command prints no secret. *)
Definition env_no_secret : Env :=
  scenario [ok "stripe version 1.21.8"; ok "[default]";
            ok "You have not configured API keys yet."]
           [line "sk_test_51H" eq_refl].

(** The listen command fails. *)
Definition env_listen_fails : Env :=
  scenario [ok "stripe version 1.21.8"; ok "[default]"; inr 1]
           [line "sk_test_51H" eq_refl].

(** The longest run: a login on the way, and a second chance at the
    gate. *)
Definition env_longest : Env :=
  scenario [ok "stripe version 1.21.8"; inr 1; ok "[default]"; ok listen_output]
           [ line "Y" eq_refl; line "sk_test_51H" eq_refl; line "N" eq_refl;
             line "not yet" eq_refl; line "CONTINUE" eq_refl;
             line "https://abc.supabase.co" eq_refl;
             line "anon-key" eq_refl; line "role-key" eq_refl ].

(** The listen command prints two secrets. *)
Definition env_two_secrets : Env :=
  scenario [ok "whsec_Zz whsec_AbC123"] [].

End Scenarios.

(** ** The Supabase key helper and src/utils/supabase/middleware.ts *)

Module Supabase.
Import JS.

(** A call either returns or throws [new Error(message)]. *)
Inductive Result (A : Type) :=
| Ok (a : A)
| Thrown (message : string).
Arguments Ok {A} a.
Arguments Thrown {A} message.

(** The object returned by [getSupabaseKeys]; a member of [process.env] is
    a string or [undefined]. *)
Record Keys := {
  publicSupabaseUrl : option string;
  publicSupabaseAnonKey : option string
}.

(** [getSupabaseKeys], over [process.env]. *)
Definition getSupabaseKeys (process_env : gmap string string) : Result Keys :=
  if falsy (process_env !! "NEXT_PUBLIC_SUPABASE_URL") then
    Thrown "NEXT_PUBLIC_SUPABASE_URL is not defined"
  else if falsy (process_env !! "NEXT_PUBLIC_SUPABASE_ANON_KEY") then
    Thrown "NEXT_PUBLIC_SUPABASE_ANON_KEY is not defined"
  else
    Ok {| publicSupabaseUrl := process_env !! "NEXT_PUBLIC_SUPABASE_URL";
          publicSupabaseAnonKey := process_env !! "NEXT_PUBLIC_SUPABASE_ANON_KEY" |}.

Section Middleware.

(** The user object of the SDK and the cookie options are opaque to the
    middleware. *)
Context {User Options : Type}.

(** An element of [cookiesToSet]. *)
Record CookieToSet := { name : string; value : string; options : Options }.

(** [request.nextUrl] *)
Record URL := {
  origin : string;
  pathname : string;
  search : string;
  fragment : string
}.

(** [url.pathname = p] *)
Definition set_pathname (p : string) (url : URL) : URL :=
  {| origin := origin url; pathname := p;
     search := search url; fragment := fragment url |}.

(** [request.cookies] maps a cookie name to its value. *)
Record NextRequest := { nextUrl : URL; cookies : gmap string string }.

(** A response of the middleware: [NextResponse.next({ request })] lets the
    request through with the cookies the request has when the response is
    made; [NextResponse.redirect(url)] sends the browser to [url].  Both
    carry the cookies set on them afterwards. *)
Inductive ResponseKind :=
| PassThrough (forwarded : gmap string string)
| Redirect (url : URL).

Record NextResponse := {
  kind : ResponseKind;
  response_cookies : gmap string (string * Options)
}.

Definition NextResponse_next (request_cookies : gmap string string) : NextResponse :=
  {| kind := PassThrough request_cookies; response_cookies := ∅ |}.

Definition NextResponse_redirect (url : URL) : NextResponse :=
  {| kind := Redirect url; response_cookies := ∅ |}.

(** [response.cookies.set(name, value, options)] *)
Definition response_set (r : NextResponse) (c : CookieToSet) : NextResponse :=
  {| kind := kind r;
     response_cookies := <[name c := (value c, options c)]> (response_cookies r) |}.

(** [request.cookies.set(name, value)] *)
Definition request_set (rc : gmap string string) (c : CookieToSet) : gmap string string :=
  <[name c := value c]> rc.

(** The two variables the cookie callbacks of lines 15-28 close over and
    update. *)
Record Closure := {
  request_cookies : gmap string string;
  supabaseResponse : NextResponse
}.

(** Lines 16-18. *)
Definition getAll (st : Closure) : gmap string string := request_cookies st.

(** Lines 19-27: both [forEach] loops run over [cookiesToSet] in order. *)
Definition setAll (cookiesToSet : list CookieToSet) (st : Closure) : Closure :=
  let rc := foldl request_set (request_cookies st) cookiesToSet in
  {| request_cookies := rc;
     supabaseResponse := foldl response_set (NextResponse_next rc) cookiesToSet |}.

(** The SDK is not part of the repository.  What it does until
    [supabase.auth.getUser()] resolves is a finite conversation with the
    two callbacks, ending with the user or [null]. *)
Inductive Sdk (A : Type) :=
| Resolve (a : A)
| CallGetAll (k : gmap string string -> Sdk A)
| CallSetAll (cookiesToSet : list CookieToSet) (k : Sdk A).
Arguments Resolve {A} a.
Arguments CallGetAll {A} k.
Arguments CallSetAll {A} cookiesToSet k.

Fixpoint run_sdk {A} (t : Sdk A) (st : Closure) : A * Closure :=
  match t with
  | Resolve a => (a, st)
  | CallGetAll k => run_sdk (k (getAll st)) st
  | CallSetAll cookiesToSet k => run_sdk k (setAll cookiesToSet st)
  end.

(** [createServerClient(url, key, { cookies })] followed by
    [supabase.auth.getUser()]. *)
Context (auth_getUser : option string -> option string -> Sdk (option User)).

(** Lines 4-47. *)
Definition updateSession (process_env : gmap string string)
    (request : NextRequest) : Result NextResponse :=
  let supabaseResponse0 := NextResponse_next (cookies request) in
  match getSupabaseKeys process_env with
  | Thrown message => Thrown message
  | Ok keys =>
      let '(user, st) :=
        run_sdk (auth_getUser (publicSupabaseUrl keys) (publicSupabaseAnonKey keys))
          {| request_cookies := cookies request;
             supabaseResponse := supabaseResponse0 |} in
      if is_null user
         && negb (startsWith (pathname (nextUrl request)) "/sign-in")
         && negb (startsWith (pathname (nextUrl request)) "/sign-up")
      then
        let url := nextUrl request in
        let url := set_pathname "/sign-in" url in
        Ok (NextResponse_redirect url)
      else Ok (supabaseResponse st)
  end.

(** *** Vocabulary of the statements *)

(** The cookie lists the SDK hands to [setAll], in order, in a conversation
    that starts with the request cookies [rc]. *)
Fixpoint setAll_calls {A} (t : Sdk A) (rc : gmap string string)
    : list (list CookieToSet) :=
  match t with
  | Resolve _ => []
  | CallGetAll k => setAll_calls (k rc) rc
  | CallSetAll cookiesToSet k =>
      cookiesToSet :: setAll_calls k (foldl request_set rc cookiesToSet)
  end.

(** The response cookies after setting those of [cs] in order on a fresh
    response. *)
Definition jar (cs : list CookieToSet) : gmap string (string * Options) :=
  foldl (fun m c => <[name c := (value c, options c)]> m) ∅ cs.

(** The closure variables at the start of [updateSession]. *)
Definition initial (request : NextRequest) : Closure :=
  {| request_cookies := cookies request;
     supabaseResponse := NextResponse_next (cookies request) |}.

(** The names of the cookies of a list. *)
Definition names (cs : list CookieToSet) : list string := map name cs.

End Middleware.

Section Browser.

(** The browser client of the SDK is opaque too. *)
Context {BrowserClient : Type}.
Context (createBrowserClient : option string -> option string -> BrowserClient).

(** [createClient], lines 49-55 of middleware.ts. *)
Definition createClient (process_env : gmap string string) : Result BrowserClient :=
  match getSupabaseKeys process_env with
  | Thrown message => Thrown message
  | Ok keys =>
      Ok (createBrowserClient (publicSupabaseUrl keys) (publicSupabaseAnonKey keys))
  end.

End Browser.

Arguments Resolve {Options A} a.
Arguments CallGetAll {Options A} k.
Arguments CallSetAll {Options A} cookiesToSet k.

(** A request for the sign-in page, and an SDK that finds no user and
    never touches the cookies. *)
Definition sign_in_request : NextRequest :=
  {| nextUrl := {| origin := "http://localhost:3000"; pathname := "/sign-in";
                   search := ""; fragment := "" |};
     cookies := ∅ |}.

Definition dashboard_request : NextRequest :=
  {| nextUrl := {| origin := "http://localhost:3000"; pathname := "/dashboard";
                   search := "?tab=billing"; fragment := "" |};
     cookies := ∅ |}.

Definition anonymous (url key : option string)
    : Sdk (Options := unit) (option unit) :=
  Resolve None.

Definition configured : gmap string string :=
  <["NEXT_PUBLIC_SUPABASE_URL" := "https://abc.supabase.co"]>
    (<["NEXT_PUBLIC_SUPABASE_ANON_KEY" := "anon-key"]> ∅).

(** An SDK that refreshes the session: it reads the cookies, sets a new
    token, and finds the user. *)
Definition refreshing (url key : option string)
    : Sdk (Options := unit) (option unit) :=
  CallGetAll (fun _ =>
    CallSetAll [ {| name := "sb-token"; value := "fresh"; options := tt |} ]
      (Resolve (Some tt))).

(** A request with a stale token and a cookie of the application. *)
Definition stale_request : NextRequest :=
  {| nextUrl := {| origin := "http://localhost:3000"; pathname := "/dashboard";
                   search := ""; fragment := "" |};
     cookies := <["sb-token" := "stale"]> (<["theme" := "dark"]> ∅) |}.

End Supabase.

(** * Properties of the string operations *)

Module JSTheory.
Import JS.

Lemma single_line_app a b :
  single_line (a +:+ b) = single_line a && single_line b.
Proof.
  induction a as [|c a IH]; simpl; [reflexivity|].
  rewrite IH. now rewrite andb_assoc.
Qed.

Lemma lines_app_nl a rest :
  single_line a = true -> lines (a +:+ String LF rest) = a :: lines rest.
Proof.
  induction a as [|c a IH]; simpl; intros H.
  - reflexivity.
  - apply andb_true_iff in H as [H Ha]. apply andb_true_iff in H as [Hc _].
    apply negb_true_iff in Hc. rewrite Hc, (IH Ha). reflexivity.
Qed.

Lemma lines_single a : single_line a = true -> lines a = [a].
Proof.
  induction a as [|c a IH]; simpl; intros H.
  - reflexivity.
  - apply andb_true_iff in H as [H Ha]. apply andb_true_iff in H as [Hc _].
    apply negb_true_iff in Hc. rewrite Hc, (IH Ha). reflexivity.
Qed.

(** Splitting undoes joining when no piece contains a line feed. *)
Lemma lines_join (ls : list string) :
  ls <> [] -> Forall (fun l => single_line l = true) ls ->
  lines (join nl ls) = ls.
Proof.
  induction ls as [|l ls IH]; [congruence|]. intros _ H.
  apply Forall_cons in H as [Hl Hls]. destruct ls as [|l' ls].
  - simpl. now apply lines_single.
  - change (join nl (l :: l' :: ls)) with (l +:+ String LF (join nl (l' :: ls))).
    rewrite (lines_app_nl _ _ Hl), IH; [reflexivity | discriminate | exact Hls].
Qed.

Lemma is_alnum_ge c : is_alnum c = true -> (48 <= nat_of_ascii c)%nat.
Proof.
  unfold is_alnum, is_lower, is_upper, is_digit. cbv zeta.
  rewrite !orb_true_iff, !andb_true_iff, !Nat.leb_le. lia.
Qed.

Lemma is_alnum_not_terminator c :
  is_alnum c = true -> Ascii.eqb c LF = false /\ Ascii.eqb c CR = false.
Proof.
  intros H%is_alnum_ge.
  split; apply Ascii.eqb_neq; intros ->; vm_compute in H; lia.
Qed.

Lemma take_alnum_single_line s : single_line (take_alnum s) = true.
Proof.
  induction s as [|c s IH]; simpl; [reflexivity|].
  destruct (is_alnum c) eqn:E; [|reflexivity]. simpl.
  destruct (is_alnum_not_terminator c E) as [-> ->]. exact IH.
Qed.

Lemma match_here_single_line s m : match_here s = Some m -> single_line m = true.
Proof.
  unfold match_here. destruct (String.prefix whsec s); [|discriminate].
  pose proof (take_alnum_single_line (drop 6 s)) as H.
  destruct (take_alnum (drop 6 s)) as [|c run]; [discriminate|].
  intros [= <-]. rewrite single_line_app, H. reflexivity.
Qed.

Lemma match_whsec_single_line s m : match_whsec s = Some m -> single_line m = true.
Proof.
  induction s as [|c s IH]; simpl.
  - discriminate.
  - destruct (match_here (String c s)) eqn:E.
    + intros [= <-]. eapply match_here_single_line, E.
    + exact IH.
Qed.

(** ** The pattern *)

#[local] Arguments String.append : simpl nomatch.

Lemma append_assoc a b c : (a +:+ b) +:+ c = a +:+ (b +:+ c).
Proof. induction a as [|x a IH]; simpl; [reflexivity | now f_equal]. Qed.

Lemma prefix_app p s : String.prefix p (p +:+ s) = true.
Proof.
  induction p as [|x p IH]; simpl.
  - now destruct s.
  - destruct (ascii_dec x x); [exact IH | congruence].
Qed.

Lemma prefix_drop p : forall s,
  String.prefix p s = true -> s = p +:+ drop (String.length p) s.
Proof.
  induction p as [|x p IH]; intros s; simpl.
  - reflexivity.
  - destruct s as [|y s]; simpl; [discriminate|].
    destruct (ascii_dec x y) as [->|]; [|discriminate].
    intros H. now rewrite <- (IH s H).
Qed.

Lemma drop_app p s : drop (String.length p) (p +:+ s) = s.
Proof. induction p as [|x p IH]; simpl; [reflexivity | exact IH]. Qed.

Lemma take_alnum_spec s :
  exists rest,
    s = take_alnum s +:+ rest /\ starts_alnum rest = false /\
    all_alnum (take_alnum s) = true.
Proof.
  induction s as [|c s (rest & E & Hr & Ha)]; simpl.
  - now exists "".
  - destruct (is_alnum c) eqn:Hc; simpl.
    + exists rest. rewrite <- E, Hc, Ha. now repeat split.
    + exists (String c s). simpl. now rewrite Hc.
Qed.

Lemma take_alnum_app run post :
  all_alnum run = true -> starts_alnum post = false ->
  take_alnum (run +:+ post) = run.
Proof.
  intros Ha Hp. induction run as [|c run IH]; simpl in *.
  - destruct post as [|c post]; simpl in *; [reflexivity | now rewrite Hp].
  - apply andb_true_iff in Ha as [Hc Ha]. now rewrite Hc, (IH Ha).
Qed.

Lemma take_alnum_app_some run post :
  all_alnum run = true -> run <> "" -> take_alnum (run +:+ post) <> "".
Proof.
  destruct run as [|c run]; [congruence|]. simpl.
  intros [Hc _]%andb_true_iff _. now rewrite Hc.
Qed.

Lemma match_here_whsec x :
  match_here (whsec +:+ x) =
    match take_alnum x with
    | EmptyString => None
    | run => Some (whsec +:+ run)
    end.
Proof. unfold match_here. rewrite prefix_app. reflexivity. Qed.

(** A token at the start is found, whatever follows. *)
Lemma match_here_complete t post :
  is_token t -> match_here (t +:+ post) <> None.
Proof.
  intros (run & -> & Hne & Ha). rewrite append_assoc, match_here_whsec.
  pose proof (take_alnum_app_some run post Ha Hne).
  destruct (take_alnum (run +:+ post)); congruence.
Qed.

(** What is found at the start is a token, taken as long as it goes. *)
Lemma match_here_sound s m :
  match_here s = Some m ->
  exists post, s = m +:+ post /\ is_token m /\ starts_alnum post = false.
Proof.
  unfold match_here. destruct (String.prefix whsec s) eqn:Hp; [|discriminate].
  apply prefix_drop in Hp. change (String.length whsec) with 6%nat in Hp.
  destruct (take_alnum_spec (drop 6 s)) as (rest & E & Hr & Ha).
  destruct (take_alnum (drop 6 s)) as [|c run] eqn:Ht; [discriminate|].
  intros [= <-]. exists rest. split; [|split].
  - change (s = (whsec +:+ String c run) +:+ rest).
    rewrite append_assoc, <- E. exact Hp.
  - exists (String c run). now repeat split.
  - exact Hr.
Qed.

Lemma match_here_exact t post :
  is_token t -> starts_alnum post = false -> match_here (t +:+ post) = Some t.
Proof.
  intros (run & -> & Hne & Ha) Hp. rewrite append_assoc, match_here_whsec.
  rewrite (take_alnum_app _ _ Ha Hp). destruct run; congruence.
Qed.

Lemma first_at_tail c pre s :
  first_at (String c pre) (String c s) -> first_at pre s.
Proof.
  intros H pre' t' Ht [post E].
  assert (occurs_at (String c pre') t' (String c s)) as Ho.
  { exists post. simpl. now rewrite E. }
  specialize (H _ _ Ht Ho). simpl in H. lia.
Qed.

(** [match] returns the leftmost token, taken as long as it goes. *)
Lemma match_whsec_sound s : forall m,
  match_whsec s = Some m ->
  exists pre post,
    s = pre +:+ m +:+ post /\ is_token m /\ starts_alnum post = false /\
    first_at pre s.
Proof.
  induction s as [|c s IH]; intros m; simpl.
  - discriminate.
  - destruct (match_here (String c s)) as [m'|] eqn:Hh.
    + intros [= <-]. apply match_here_sound in Hh as (post & E & Ht & Hp).
      exists "", post. repeat split; try assumption.
      intros pre' t' _ _. simpl. lia.
    + intros (pre & post & E & Ht & Hp & Hf)%IH.
      exists (String c pre), post. simpl. rewrite <- E.
      repeat split; try assumption.
      intros [|c' pre'] t' Ht' [post' E'].
      * exfalso. simpl in E'. rewrite E' in Hh.
        now apply (match_here_complete t' post').
      * simpl in E'. injection E' as _ E'.
        assert (occurs_at pre' t' s) as Ho by now exists post'.
        specialize (Hf _ _ Ht' Ho). simpl. lia.
Qed.

(** [match] returns [null] only when no token occurs anywhere. *)
Lemma match_whsec_none s :
  match_whsec s = None -> forall pre t, is_token t -> ~ occurs_at pre t s.
Proof.
  induction s as [|c s IH]; simpl.
  - intros _ pre t (run & -> & _) [post E].
    destruct pre; simpl in E; discriminate.
  - destruct (match_here (String c s)) as [m'|] eqn:Hh; [discriminate|].
    intros Hn [|c' pre] t Ht [post E].
    + simpl in E. rewrite E in Hh. now apply (match_here_complete t post).
    + simpl in E. injection E as _ E. apply (IH Hn pre t Ht). now exists post.
Qed.

Lemma match_whsec_here s m : match_here s = Some m -> match_whsec s = Some m.
Proof. intros H. destruct s; unfold match_whsec; fold match_whsec; now rewrite H. Qed.

(** A token that occurs with nothing of the class after it and no match
    starting before it is what [match] returns. *)
Lemma match_whsec_first pre : forall t post,
  is_token t -> starts_alnum post = false ->
  first_at pre (pre +:+ t +:+ post) ->
  match_whsec (pre +:+ t +:+ post) = Some t.
Proof.
  induction pre as [|c pre IH]; intros t post Ht Hp Hf.
  - apply match_whsec_here. change (match_here (t +:+ post) = Some t).
    now apply match_here_exact.
  - simpl. destruct (match_here (String c (pre +:+ t +:+ post))) as [m|] eqn:Hh.
    + exfalso. apply match_here_sound in Hh as (post' & E & Hm & _).
      assert (occurs_at "" m (String c pre +:+ t +:+ post)) as Ho
        by now exists post'.
      specialize (Hf _ _ Hm Ho). simpl in Hf. lia.
    + apply IH; try assumption. now apply (first_at_tail c).
Qed.

Lemma no_match_before_first_at pre s :
  no_match_before (String.length pre) s = true -> first_at pre s.
Proof.
  unfold first_at. generalize (String.length pre) as n. intros n. revert s.
  induction n as [|n IH]; intros s H pre' t' Ht [post E]; [lia|].
  simpl in H. destruct (match_here s) eqn:Hh; [discriminate|].
  destruct pre' as [|c pre'].
  - exfalso. simpl in E. rewrite E in Hh. now apply (match_here_complete t' post).
  - simpl in E. subst s. simpl.
    assert (occurs_at pre' t' (pre' +:+ t' +:+ post)) as Ho by now exists post.
    specialize (IH _ H _ _ Ht Ho). lia.
Qed.

End JSTheory.

(** * Properties of the setup script *)

Module SetupTheory.
Import JS Setup Scenarios JSTheory.

(** ** Tactics *)

(** Splits a trace [e1 :: ... :: en :: t] into the new events and [t]. *)
Ltac new_events :=
  lazymatch goal with
  | |- since ?w _ ?evs =>
      unfold since; simpl;
      lazymatch goal with
      | |- ?l = _ ++ ?t =>
          let rec go l :=
            lazymatch l with
            | t => constr:(@nil Event)
            | ?a :: ?r => let r' := go r in constr:(a :: r')
            end in
          let e := go l in
          unify evs e; reflexivity
      end
  end.

(** Unfolds the script down to the oracles of the environment. *)
Ltac script :=
  unfold main, checkStripeCLI, getStripeSecretKey, createStripeWebhookSecret,
    checkSupabaseProject, getSupabaseKeysApiUrl, getSupabaseKeysAnonKey,
    getSupabaseKeysServiceRoleKey, writeEnvFile, writeFile_dotenv,
    mbind, M_bind, mret, M_ret,
    try_catch, execAsync, question, console_log, console_error, emit,
    process_exit, throw, execs, asked, ask_authenticated, ask_secret_key,
    ask_project, ask_continue, ask_continue_again, ask_api_url, ask_anon_key,
    ask_role_key, invalid_input, extraction_error in *; simpl in *.

(** ** Comparisons *)

Lemma strict_ne_true a b : a <> b -> strict_ne a b = true.
Proof.
  intros H. unfold strict_ne. apply negb_true_iff. now apply String.eqb_neq.
Qed.

Lemma strict_ne_false a b : a = b -> strict_ne a b = false.
Proof.
  intros ->. unfold strict_ne. now rewrite String.eqb_refl.
Qed.

Lemma strict_eq_true a b : a = b -> strict_eq a b = true.
Proof. intros ->. apply String.eqb_refl. Qed.

Lemma strict_eq_false a b : a <> b -> strict_eq a b = false.
Proof. intros H. now apply String.eqb_neq. Qed.

Lemma strict_eq_spec a b : reflect (a = b) (strict_eq a b).
Proof. apply String.eqb_spec. Qed.

(** ** How the steps move the world *)

Section Respects.
Context (R : World -> World -> Prop).
Hypothesis R_refl : forall w, R w w.
Hypothesis R_trans : forall a b c, R a b -> R b c -> R a c.

Lemma respects_mret {A} (a : A) : respects R (mret a).
Proof. intros w. apply R_refl. Qed.

Lemma respects_throw {A} e : respects R (throw (A := A) e).
Proof. intros w. apply R_refl. Qed.

Lemma respects_exit {A} c : respects R (process_exit (A := A) c).
Proof. intros w. apply R_refl. Qed.

Lemma respects_bind {A B} (m : M A) (k : A -> M B) :
  respects R m -> (forall a, respects R (k a)) -> respects R (m ≫= k).
Proof.
  intros Hm Hk w. specialize (Hm w). unfold mbind, M_bind.
  destruct (m w) as [[a|e|c] w1]; simpl in *; try exact Hm.
  eapply R_trans; [exact Hm | apply Hk].
Qed.

Lemma respects_try_catch {A} (body : M A) handler :
  respects R body -> (forall e, respects R (handler e)) ->
  respects R (try_catch body handler).
Proof.
  intros Hm Hk w. specialize (Hm w). unfold try_catch.
  destruct (body w) as [[a|e|c] w1]; simpl in *; try exact Hm.
  eapply R_trans; [exact Hm | apply Hk].
Qed.

End Respects.

Lemma count_app p (a b : list Event) :
  count p (a ++ b) = (count p a + count p b)%nat.
Proof. induction a as [|ev a IH]; simpl; [reflexivity | rewrite IH; lia]. Qed.

Lemma extends_refl w : extends w w.
Proof. now exists []. Qed.

Lemma extends_trans a b c : extends a b -> extends b c -> extends a c.
Proof.
  intros [e1 H1] [e2 H2]. exists (e2 ++ e1). unfold since in *.
  now rewrite H2, H1, app_assoc.
Qed.

Lemma no_write_refl w : no_write w w.
Proof. split; [reflexivity|]. now exists []. Qed.

Lemma no_write_trans a b c : no_write a b -> no_write b c -> no_write a c.
Proof.
  intros [Hd1 (e1 & H1 & C1)] [Hd2 (e2 & H2 & C2)]. split; [congruence|].
  exists (e2 ++ e1). unfold since in *. split.
  - now rewrite H2, H1, app_assoc.
  - rewrite count_app. lia.
Qed.

Lemma no_write_extends a b : no_write a b -> extends a b.
Proof. intros [_ (evs & H & _)]. now exists evs. Qed.

Lemma extends_elem_of ev a b : extends a b -> ev ∈ trace a -> ev ∈ trace b.
Proof. intros [evs H] Hin. rewrite H. apply elem_of_app. now right. Qed.

Lemma no_write_emit ev : is_write ev = false -> respects no_write (emit ev).
Proof.
  intros H w. split; [reflexivity|]. exists [ev]. split; [reflexivity|].
  simpl. now rewrite H.
Qed.

Lemma no_write_execAsync env cmd : respects no_write (execAsync env cmd).
Proof.
  intros w. unfold execAsync.
  destruct (exec_result _ _ _); (split; [reflexivity|]);
    exists [Exec cmd]; split; reflexivity.
Qed.

Lemma no_write_question env q : respects no_write (question env q).
Proof.
  intros w. split; [reflexivity|]. eexists [_]. split; reflexivity.
Qed.

Lemma extends_writeFile env data : respects extends (writeFile_dotenv env data).
Proof.
  intros w. unfold writeFile_dotenv.
  destruct (write_fails _ _ _); exists [WriteFile data]; reflexivity.
Qed.

(** Breaks a step into its primitives, for a relation whose facts about
    the primitives are given by [prim]. *)
Ltac respects_with refl trans prim :=
  repeat lazymatch goal with
    | |- respects _ (mbind _ _) => apply (respects_bind _ trans); [| intros ?]
    | |- respects _ (try_catch _ _) =>
        apply (respects_try_catch _ trans); [| intros ?]
    | |- respects _ (mret _) => apply (respects_mret _ refl)
    | |- respects _ (throw _) => apply (respects_throw _ refl)
    | |- respects _ (process_exit _) => apply (respects_exit _ refl)
    | |- respects _ (if ?b then _ else _) => destruct b
    | |- respects _ (match ?x with _ => _ end) => destruct x
    | |- respects _ _ => prim
    end.

Ltac no_write_prim :=
  idtac; lazymatch goal with
  | |- respects _ (execAsync _ _) => apply no_write_execAsync
  | |- respects _ (question _ _) => apply no_write_question
  | |- respects _ (emit _) => apply no_write_emit; reflexivity
  end.

Ltac no_write_step := respects_with no_write_refl no_write_trans no_write_prim.

Lemma no_write_checkStripeCLI env : respects no_write (checkStripeCLI env).
Proof. unfold checkStripeCLI, console_log, console_error. no_write_step. Qed.

Lemma no_write_getStripeSecretKey env : respects no_write (getStripeSecretKey env).
Proof. unfold getStripeSecretKey, console_log. no_write_step. Qed.

Lemma no_write_createStripeWebhookSecret env :
  respects no_write (createStripeWebhookSecret env).
Proof.
  unfold createStripeWebhookSecret, console_log, console_error. no_write_step.
Qed.

Lemma no_write_checkSupabaseProject env :
  respects no_write (checkSupabaseProject env).
Proof. unfold checkSupabaseProject, console_log, console_error. no_write_step. Qed.

Lemma no_write_getSupabaseKeysApiUrl env :
  respects no_write (getSupabaseKeysApiUrl env).
Proof. unfold getSupabaseKeysApiUrl, console_log. no_write_step. Qed.

Create HintDb steps.
#[local] Hint Resolve no_write_checkStripeCLI no_write_getStripeSecretKey
  no_write_createStripeWebhookSecret no_write_checkSupabaseProject
  no_write_getSupabaseKeysApiUrl no_write_question : steps.

Lemma respects_no_write_extends {A} (m : M A) :
  respects no_write m -> respects extends m.
Proof. intros H w. apply no_write_extends, H. Qed.

Ltac extends_prim :=
  idtac; lazymatch goal with
  | |- respects _ (writeFile_dotenv _ _) => apply extends_writeFile
  | |- respects _ (emit _) =>
      apply respects_no_write_extends, no_write_emit; reflexivity
  | |- respects _ _ => apply respects_no_write_extends; solve [auto with steps]
  end.

Lemma extends_main env : respects extends (main env).
Proof.
  unfold main, writeEnvFile, getSupabaseKeysAnonKey,
    getSupabaseKeysServiceRoleKey, console_log. cbv zeta.
  respects_with extends_refl extends_trans extends_prim.
Qed.

Lemma bind_ret_eq {A B} (m : M A) (k : A -> M B) w a w1 :
  m w = (Ret a, w1) -> (m ≫= k) w = k a w1.
Proof. intros H. unfold mbind, M_bind. now rewrite H. Qed.

Lemma bind_exit_eq {A B} (m : M A) (k : A -> M B) w c w1 :
  m w = (Exit c, w1) -> (m ≫= k) w = (Exit c, w1).
Proof. intros H. unfold mbind, M_bind. now rewrite H. Qed.

Lemma bind_throw_eq {A B} (m : M A) (k : A -> M B) w e w1 :
  m w = (Throw e, w1) -> (m ≫= k) w = (Throw e, w1).
Proof. intros H. unfold mbind, M_bind. now rewrite H. Qed.

(** Once the verifier has returned, [main] asks for the secret key. *)
Lemma main_proceeds_to_secret_key env w w1 :
  checkStripeCLI env w = (Ret tt, w1) ->
  Question ask_secret_key (text (answer env (asked w1) ask_secret_key))
    ∈ trace (snd (main env w)).
Proof.
  intros H. unfold main. rewrite (bind_ret_eq _ _ _ _ _ H).
  unfold getStripeSecretKey at 1.
  repeat (erewrite bind_ret_eq; [| reflexivity]).
  lazymatch goal with
  | |- _ ∈ trace (?k ?w2).2 =>
      assert (respects extends k) as Hk;
      [| apply (extends_elem_of _ w2);
         [exact (Hk w2) | simpl; apply list_elem_of_here]]
  end.
  unfold writeEnvFile, getSupabaseKeysAnonKey, getSupabaseKeysServiceRoleKey,
    console_log. cbv zeta.
  respects_with extends_refl extends_trans extends_prim.
Qed.

(** ** The external tool verifier *)

(** C6. When [stripe --version] fails, [main] ends in [process.exit(1)],
    the process has status 1, and between the start and the exit the
    operator was asked nothing (and no other command was run). *)
Theorem version_probe_failure_exits_before_any_prompt env w code :
  exec_result env (execs w) "stripe --version" = inr code ->
  exists w' evs,
    main env w = (Exit 1, w') /\ run env w = (1, w') /\
    since w w' evs /\ count is_question evs = 0%nat /\ count is_exec evs = 1%nat.
Proof.
  intros H. unfold run. script. rewrite H. simpl.
  eexists _, _. split; [reflexivity|]. split; [reflexivity|].
  split; [new_events|]. split; reflexivity.
Qed.

(** C5. When the tool is installed and the authentication probe fails, the
    operator is asked once.  An answer other than [y] (in any case) ends the
    process with status 1 and the probe was run once only.  After [y] the
    probe is run a second time and no more: if it fails the process ends
    with status 1, if it succeeds the verifier returns and [main] goes on
    to ask for the secret key. *)
Theorem authentication_probe_failure env w v code :
  exec_result env (execs w) "stripe --version" = inl v ->
  exec_result env (S (execs w)) "stripe config --list" = inr code ->
  let ans := text (answer env (asked w) ask_authenticated) in
  let again := exec_result env (S (S (execs w))) "stripe config --list" in
  (toLowerCase ans <> "y" ->
   exists w' evs,
     checkStripeCLI env w = (Exit 1, w') /\ run env w = (1, w') /\
     since w w' evs /\ count is_probe evs = 1%nat /\
     count is_question evs = 1%nat) /\
  (toLowerCase ans = "y" ->
   (forall code', again = inr code' ->
    exists w' evs,
      checkStripeCLI env w = (Exit 1, w') /\ run env w = (1, w') /\
      since w w' evs /\ count is_probe evs = 2%nat /\
      count is_question evs = 1%nat) /\
   (forall v', again = inl v' ->
    exists w' evs,
      checkStripeCLI env w = (Ret tt, w') /\
      since w w' evs /\ count is_probe evs = 2%nat /\
      count is_question evs = 1%nat /\
      Question ask_secret_key (text (answer env (S (asked w)) ask_secret_key))
        ∈ trace (snd (main env w)))).
Proof.
  intros Hv Hp ans again. subst ans again.
  split; [| intros H; split].
  - intros Hn.
    assert (exists w', checkStripeCLI env w = (Exit 1, w') /\ exists evs,
      since w w' evs /\ count is_probe evs = 1%nat /\
      count is_question evs = 1%nat) as (w' & E & evs & Hs).
    { script. rewrite Hv. simpl. rewrite Hp. simpl.
      rewrite (strict_ne_true _ _ Hn). simpl.
      eexists. split; [reflexivity|]. eexists. split; [new_events|].
      split; reflexivity. }
    exists w', evs. split; [exact E|]. split; [|exact Hs].
    unfold run, main. now rewrite (bind_exit_eq _ _ _ _ _ E).
  - intros code' Ha.
    assert (exists w', checkStripeCLI env w = (Exit 1, w') /\ exists evs,
      since w w' evs /\ count is_probe evs = 2%nat /\
      count is_question evs = 1%nat) as (w' & E & evs & Hs).
    { script. rewrite Hv. simpl. rewrite Hp. simpl.
      rewrite (strict_ne_false _ _ H). simpl. rewrite Ha. simpl.
      eexists. split; [reflexivity|]. eexists. split; [new_events|].
      split; reflexivity. }
    exists w', evs. split; [exact E|]. split; [|exact Hs].
    unfold run, main. now rewrite (bind_exit_eq _ _ _ _ _ E).
  - intros v' Ha.
    assert (exists w', checkStripeCLI env w = (Ret tt, w') /\
      asked w' = S (asked w) /\ exists evs,
      since w w' evs /\ count is_probe evs = 2%nat /\
      count is_question evs = 1%nat) as (w' & E & Hq & evs & Hs & Hc1 & Hc2).
    { script. rewrite Hv. simpl. rewrite Hp. simpl.
      rewrite (strict_ne_false _ _ H). simpl. rewrite Ha. simpl.
      eexists. split; [reflexivity|]. split; [reflexivity|].
      eexists. split; [new_events|]. split; reflexivity. }
    exists w', evs. repeat (split; [assumption|]).
    rewrite <- Hq. now apply main_proceeds_to_secret_key.
Qed.

(** ** The project existence gate *)

(** [process.exit] in a step ends the pipeline: what follows is not run,
    and the status of the process is the code given. *)
Lemma exit_is_final {A B} (m : M A) (k : A -> M B) w c w' :
  m w = (Exit c, w') -> (m ≫= k) w = (Exit c, w').
Proof. apply bind_exit_eq. Qed.

Lemma run_exit env w c w' : main env w = (Exit c, w') -> run env w = (c, w').
Proof. intros H. unfold run. now rewrite H. Qed.

(** C3. After the answer [n] and a first confirmation that is not
    [continue] (in any case), the gate asks the second confirmation, once:
    three prompts in all.  If the second answer is [continue] the gate
    returns (confirmed); if not it ends the process with status 1, whatever
    was to follow.  No further prompt is issued on either path. *)
Theorem project_gate_second_chance env w :
  let a0 := text (answer env (asked w) ask_project) in
  let a1 := text (answer env (S (asked w)) ask_continue) in
  let a2 := text (answer env (S (S (asked w))) ask_continue_again) in
  toLowerCase a0 = "n" ->
  toLowerCase a1 <> "continue" ->
  (toLowerCase a2 = "continue" ->
   exists w' evs,
     checkSupabaseProject env w = (Ret tt, w') /\ since w w' evs /\
     count (asks ask_continue_again) evs = 1%nat /\
     count is_question evs = 3%nat) /\
  (toLowerCase a2 <> "continue" ->
   exists w' evs,
     checkSupabaseProject env w = (Exit 1, w') /\ since w w' evs /\
     count (asks ask_continue_again) evs = 1%nat /\
     count is_question evs = 3%nat /\
     forall B (k : unit -> M B), (checkSupabaseProject env ≫= k) w = (Exit 1, w')).
Proof.
  intros a0 a1 a2 H0 H1. subst a0 a1 a2. split; intros H2.
  - script. rewrite (strict_eq_true _ _ H0). simpl.
    rewrite (strict_ne_true _ _ H1). simpl.
    rewrite (strict_ne_false _ _ H2).
    eexists _, _. split; [reflexivity|]. split; [new_events|].
    split; reflexivity.
  - assert (exists w' evs,
      checkSupabaseProject env w = (Exit 1, w') /\ since w w' evs /\
      count (asks ask_continue_again) evs = 1%nat /\
      count is_question evs = 3%nat) as (w' & evs & E & Hs).
    { script. rewrite (strict_eq_true _ _ H0). simpl.
      rewrite (strict_ne_true _ _ H1). simpl.
      rewrite (strict_ne_true _ _ H2).
      eexists _, _. split; [reflexivity|]. split; [new_events|].
      split; reflexivity. }
    exists w', evs. split; [exact E|].
    destruct Hs as (? & ? & ?). repeat (split; [assumption|]).
    intros B k. now apply exit_is_final.
Qed.

(** C7. A first answer that is neither [y] nor [n] (in any case) prints the
    invalid-input message and ends the process with status 1, whatever was
    to follow; the existence question is the only prompt of the gate.  The
    answer [y] makes the gate return (confirmed) after that one prompt. *)
Theorem project_gate_first_answer env w :
  let a0 := text (answer env (asked w) ask_project) in
  (toLowerCase a0 <> "y" -> toLowerCase a0 <> "n" ->
   exists w' evs,
     checkSupabaseProject env w = (Exit 1, w') /\ since w w' evs /\
     head evs = Some (ConsoleError invalid_input) /\
     count is_question evs = 1%nat /\
     forall B (k : unit -> M B), (checkSupabaseProject env ≫= k) w = (Exit 1, w')) /\
  (toLowerCase a0 = "y" ->
   exists w' evs,
     checkSupabaseProject env w = (Ret tt, w') /\ since w w' evs /\
     count is_question evs = 1%nat).
Proof.
  intros a0. subst a0. split.
  - intros Hy Hn.
    assert (exists w' evs,
      checkSupabaseProject env w = (Exit 1, w') /\ since w w' evs /\
      head evs = Some (ConsoleError invalid_input) /\
      count is_question evs = 1%nat) as (w' & evs & E & Hs).
    { script. rewrite (strict_eq_false _ _ Hn), (strict_eq_false _ _ Hy).
      eexists _, _. split; [reflexivity|]. split; [new_events|].
      split; reflexivity. }
    exists w', evs. split; [exact E|].
    destruct Hs as (? & ? & ?). repeat (split; [assumption|]).
    intros B k. now apply exit_is_final.
  - intros Hy. script.
    rewrite (strict_eq_false (toLowerCase _) "n"), (strict_eq_true _ _ Hy).
    + eexists _, _. split; [reflexivity|]. split; [new_events|]. reflexivity.
    + rewrite Hy. discriminate.
Qed.

(** ** The pipeline driver *)

(** After a step of [main] has been run from the current world: when it
    returned ([E]), go on with what follows it; when it threw or ended the
    process, [main] ends there, and [N] says that nothing was written. *)
Ltac step_or_stop E N :=
  simpl in N;
  first
    [ rewrite (bind_ret_eq _ _ _ _ _ E)
    | rewrite (bind_throw_eq _ _ _ _ _ E); right; split; [exact I | exact N]
    | rewrite (bind_exit_eq _ _ _ _ _ E); right; split; [exact I | exact N] ].

(** Either the five steps before the assembly all return, nothing has been
    written by then and [main] goes on with [writeEnvFile]; or [main] fails
    and nothing was written at all. *)
Lemma main_cases env w :
  (exists sk wh url anon role w7,
     gathered env w sk wh url anon role w7 /\ no_write w w7 /\
     main env w =
       (writeEnvFile env (config sk wh url anon role);;
        console_log "🎉 Setup completed successfully!") w7) \/
  (failed (fst (main env w)) /\ no_write w (snd (main env w))).
Proof.
  unfold main.
  pose proof (no_write_checkStripeCLI env w) as N1.
  destruct (checkStripeCLI env w) as [[[]|e|c] w1] eqn:E1; step_or_stop E1 N1.
  pose proof (no_write_trans _ _ _ N1 (no_write_getStripeSecretKey env w1)) as N2.
  destruct (getStripeSecretKey env w1) as [[sk|e|c] w2] eqn:E2;
    step_or_stop E2 N2.
  pose proof (no_write_trans _ _ _ N2
                (no_write_createStripeWebhookSecret env w2)) as N3.
  destruct (createStripeWebhookSecret env w2) as [[wh|e|c] w3] eqn:E3;
    step_or_stop E3 N3.
  pose proof (no_write_trans _ _ _ N3 (no_write_checkSupabaseProject env w3)) as N4.
  destruct (checkSupabaseProject env w3) as [[[]|e|c] w4] eqn:E4;
    step_or_stop E4 N4.
  pose proof (no_write_trans _ _ _ N4 (no_write_getSupabaseKeysApiUrl env w4)) as N5.
  destruct (getSupabaseKeysApiUrl env w4) as [[url|e|c] w5] eqn:E5;
    step_or_stop E5 N5.
  pose proof (no_write_trans _ _ _ N5
                (no_write_question env ask_anon_key w5)) as N6.
  pose proof (no_write_trans _ _ _ N6
                (no_write_question env ask_role_key
                   (snd (getSupabaseKeysAnonKey env w5)))) as N7.
  left.
  exists sk, wh, url, (text (answer env (asked w5) ask_anon_key)),
    (text (answer env (S (asked w5)) ask_role_key)).
  eexists. split; [|split; [exact N7|reflexivity]].
  exists w1, w2, w3, w4, w5. eexists.
  repeat (split; [eassumption || reflexivity|]). reflexivity.
Qed.

(** What the assembly itself can do: write and return, or fail to write
    and throw. *)
Lemma assembly_cases env vars w :
  let data := join nl (map render_entry vars) in
  let r := (writeEnvFile env vars;;
            console_log "🎉 Setup completed successfully!") w in
  (fst r = Ret tt /\ dotenv (snd r) = Some data /\
   write_fails env (dotenv w) data = None) \/
  (fst r = Throw WriteFailure /\
   write_fails env (dotenv w) data = Some (dotenv (snd r))).
Proof.
  script. destruct (write_fails env (dotenv w) _) as [residue|].
  - right. split; reflexivity.
  - left. repeat split; reflexivity.
Qed.

(** C8. A run of [main] goes one of two ways.  Either the five steps before
    the assembly all returned, nothing had been written when the last of
    them returned, and [main] continues with [writeEnvFile]; or [main]
    failed and nothing was written during the whole run.  In particular a
    run that ends in [process.exit], or in an exception other than the
    failure of the write itself, has written nothing. *)
Theorem no_write_unless_assembly_reached env w :
  ((exists sk wh url anon role w7,
      gathered env w sk wh url anon role w7 /\ no_write w w7 /\
      main env w =
        (writeEnvFile env (config sk wh url anon role);;
         console_log "🎉 Setup completed successfully!") w7) \/
   (failed (fst (main env w)) /\ no_write w (snd (main env w)))) /\
  (forall c, fst (main env w) = Exit c -> no_write w (snd (main env w))) /\
  (forall e, fst (main env w) = Throw e -> e <> WriteFailure ->
             no_write w (snd (main env w))).
Proof.
  split; [apply main_cases|].
  destruct (main_cases env w)
    as [(sk & wh & url & anon & role & w7 & _ & _ & E) | [_ N]].
  - rewrite E.
    destruct (assembly_cases env (config sk wh url anon role) w7)
      as [[R _] | [R _]]; cbv zeta in R; rewrite R;
      split; intros; congruence.
  - split; intros; exact N.
Qed.

(** ** The webhook secret extractor *)

(** When the extractor returns, the command succeeded and the value
    returned is the match in its standard output. *)
Lemma createStripeWebhookSecret_ret env w m w' :
  createStripeWebhookSecret env w = (Ret m, w') ->
  exists out,
    exec_result env (execs w) "stripe listen --print-secret" = inl out /\
    match_whsec (stdout out) = Some m.
Proof.
  script. destruct (exec_result env _ _) as [out|code]; simpl.
  - destruct (match_whsec (stdout out)) as [m'|] eqn:Hm; simpl.
    + intros [= <- _]. now exists out.
    + destruct (strict_eq (platform env) "win32"); discriminate.
  - destruct (strict_eq (platform env) "win32"); discriminate.
Qed.

Lemma createStripeWebhookSecret_some env w out m :
  exec_result env (execs w) "stripe listen --print-secret" = inl out ->
  match_whsec (stdout out) = Some m ->
  exists w', createStripeWebhookSecret env w = (Ret m, w').
Proof.
  intros He Hm. script. rewrite He. simpl. rewrite Hm. simpl. now eexists.
Qed.

Lemma createStripeWebhookSecret_none env w out :
  exec_result env (execs w) "stripe listen --print-secret" = inl out ->
  match_whsec (stdout out) = None ->
  exists w', createStripeWebhookSecret env w = (Throw extraction_error, w').
Proof.
  intros He Hm. script. rewrite He. simpl. rewrite Hm. simpl.
  destruct (strict_eq (platform env) "win32"); now eexists.
Qed.

Lemma createStripeWebhookSecret_exec_fails env w code :
  exec_result env (execs w) "stripe listen --print-secret" = inr code ->
  exists w',
    createStripeWebhookSecret env w =
      (Throw (ExecFailure "stripe listen --print-secret" code), w').
Proof.
  intros He. script. rewrite He. simpl.
  destruct (strict_eq (platform env) "win32"); now eexists.
Qed.

(** C4, as the code has it.  When the listen command succeeds: a token of
    the pattern that occurs in its output with no character of the class
    after it and with no match of the pattern starting before it is what
    the extractor returns, so it returns exactly [whsec_AbC123] for an
    output that has this token in such a place; whatever the extractor
    returns is such a token of the output; and when no token of the
    pattern occurs anywhere in the output the extractor throws the
    extraction error. *)
Theorem extractor_returns_first_token env w out :
  exec_result env (execs w) "stripe listen --print-secret" = inl out ->
  (forall pre t post,
     is_token t -> stdout out = pre +:+ t +:+ post ->
     starts_alnum post = false -> first_at pre (stdout out) ->
     exists w', createStripeWebhookSecret env w = (Ret t, w')) /\
  (forall pre post,
     stdout out = pre +:+ "whsec_AbC123" +:+ post ->
     starts_alnum post = false -> first_at pre (stdout out) ->
     exists w', createStripeWebhookSecret env w = (Ret "whsec_AbC123", w')) /\
  (forall m w',
     createStripeWebhookSecret env w = (Ret m, w') ->
     exists pre post,
       stdout out = pre +:+ m +:+ post /\ is_token m /\
       starts_alnum post = false /\ first_at pre (stdout out)) /\
  ((forall pre t, is_token t -> ~ occurs_at pre t (stdout out)) ->
   exists w', createStripeWebhookSecret env w = (Throw extraction_error, w')).
Proof.
  intros He.
  assert (forall pre t post,
     is_token t -> stdout out = pre +:+ t +:+ post ->
     starts_alnum post = false -> first_at pre (stdout out) ->
     exists w', createStripeWebhookSecret env w = (Ret t, w')) as First.
  { intros pre t post Ht E Hp Hf.
    apply (createStripeWebhookSecret_some env w out t He).
    rewrite E in *. now apply match_whsec_first. }
  split; [exact First|]. split; [|split].
  - intros pre post. apply First. exists "AbC123". now repeat split.
  - intros m w' (out' & He' & Hm)%createStripeWebhookSecret_ret.
    rewrite He in He'. injection He' as <-. now apply match_whsec_sound.
  - intros Hno. apply (createStripeWebhookSecret_none env w out He).
    destruct (match_whsec (stdout out)) as [m|] eqn:Hm; [|reflexivity].
    apply match_whsec_sound in Hm as (pre & post & E & Ht & _).
    exfalso. apply (Hno pre m Ht). now exists post.
Qed.

(** ** The exit status *)

Lemma run_throw env w e w' :
  main env w = (Throw e, w') -> fst (run env w) = 0.
Proof. intros H. unfold run. now rewrite H. Qed.

Lemma run_ret env w w' : main env w = (Ret tt, w') -> run env w = (0, w').
Proof. intros H. unfold run. now rewrite H. Qed.

(** An exception thrown by the extractor reaches the end of [main]. *)
Lemma main_extraction_throws env w w1 sk w2 e w3 :
  checkStripeCLI env w = (Ret tt, w1) ->
  getStripeSecretKey env w1 = (Ret sk, w2) ->
  createStripeWebhookSecret env w2 = (Throw e, w3) ->
  main env w = (Throw e, w3).
Proof.
  intros E1 E2 E3. unfold main.
  rewrite (bind_ret_eq _ _ _ _ _ E1), (bind_ret_eq _ _ _ _ _ E2).
  now apply bind_throw_eq.
Qed.

(** C1, at a failing input.  The tool is installed and authenticated and
    the listen command prints no secret: the extractor throws the
    extraction error, [main] rejects with it, the rejection is printed,
    nothing is written, and the process ends with status 0, where the
    claim has a status other than 0.  The same happens when the listen
    command itself fails. *)
Theorem extraction_failure_ends_with_status_0 :
  fst (main env_no_secret start) = Throw extraction_error /\
  fst (run env_no_secret start) = 0 /\
  head (trace (snd (run env_no_secret start)))
    = Some (ConsoleErrorValue extraction_error) /\
  dotenv (snd (run env_no_secret start)) = None /\
  fst (main env_listen_fails start)
    = Throw (ExecFailure "stripe listen --print-secret" 1) /\
  fst (run env_listen_fails start) = 0.
Proof. repeat split; vm_compute; reflexivity. Qed.

Section ExitCodes.
Context (code : Z).

Lemma exits_bind {A B} (m : M A) (k : A -> M B) :
  exits_only_with code m -> (forall a, exits_only_with code (k a)) ->
  exits_only_with code (m ≫= k).
Proof.
  intros Hm Hk w c w'. unfold mbind, M_bind.
  destruct (m w) as [[a|e|c'] w1] eqn:E.
  - apply Hk.
  - discriminate.
  - intros [= <- _]. eapply Hm, E.
Qed.

Lemma exits_try_catch {A} (body : M A) handler :
  exits_only_with code body -> (forall e, exits_only_with code (handler e)) ->
  exits_only_with code (try_catch body handler).
Proof.
  intros Hm Hk w c w'. unfold try_catch.
  destruct (body w) as [[a|e|c'] w1] eqn:E.
  - discriminate.
  - apply Hk.
  - intros [= <- _]. eapply Hm, E.
Qed.

Lemma exits_mret {A} (a : A) : exits_only_with code (mret a).
Proof. intros w c w'. discriminate. Qed.

Lemma exits_throw {A} e : exits_only_with code (throw (A := A) e).
Proof. intros w c w'. discriminate. Qed.

Lemma exits_emit ev : exits_only_with code (emit ev).
Proof. intros w c w'. discriminate. Qed.

Lemma exits_question env q : exits_only_with code (question env q).
Proof. intros w c w'. discriminate. Qed.

Lemma exits_execAsync env cmd : exits_only_with code (execAsync env cmd).
Proof.
  intros w c w'. unfold execAsync. destruct (exec_result _ _ _); discriminate.
Qed.

Lemma exits_writeFile env data : exits_only_with code (writeFile_dotenv env data).
Proof.
  intros w c w'. unfold writeFile_dotenv.
  destruct (write_fails _ _ _); discriminate.
Qed.

Lemma exits_process_exit {A} : exits_only_with code (process_exit (A := A) code).
Proof. intros w c w'. now intros [= <- _]. Qed.

End ExitCodes.

Ltac exit_codes :=
  repeat lazymatch goal with
    | |- exits_only_with _ (mbind _ _) => apply exits_bind; [| intros ?]
    | |- exits_only_with _ (try_catch _ _) => apply exits_try_catch; [| intros ?]
    | |- exits_only_with _ (mret _) => apply exits_mret
    | |- exits_only_with _ (throw _) => apply exits_throw
    | |- exits_only_with _ (emit _) => apply exits_emit
    | |- exits_only_with _ (question _ _) => apply exits_question
    | |- exits_only_with _ (execAsync _ _) => apply exits_execAsync
    | |- exits_only_with _ (writeFile_dotenv _ _) => apply exits_writeFile
    | |- exits_only_with _ (process_exit _) => apply exits_process_exit
    | |- exits_only_with _ (if ?b then _ else _) => destruct b
    | |- exits_only_with _ (match ?x with _ => _ end) => destruct x
    end.

(** Every [process.exit] of the script has status 1. *)
Lemma main_exits_only_with_1 env : exits_only_with 1 (main env).
Proof.
  unfold main, checkStripeCLI, getStripeSecretKey, createStripeWebhookSecret,
    checkSupabaseProject, getSupabaseKeysApiUrl, getSupabaseKeysAnonKey,
    getSupabaseKeysServiceRoleKey, writeEnvFile, console_log, console_error.
  cbv zeta. exit_codes.
Qed.

(** The status of the process is 1 exactly when [main] ends in
    [process.exit]; a run in which [main] throws has status 0, like a run
    in which it returns. *)
Lemma status_cases env w :
  match fst (main env w) with
  | Exit c => c = 1 /\ fst (run env w) = 1
  | _ => fst (run env w) = 0
  end.
Proof.
  pose proof (main_exits_only_with_1 env w) as H. unfold run.
  destruct (main env w) as [[[]|e|c] w']; simpl; try reflexivity.
  rewrite (H c w' eq_refl). now split.
Qed.

(** ** The configuration assembler *)

(** The values gathered by the five steps are free of line terminators:
    four are lines typed by the operator, one is a match of the pattern. *)
Lemma gathered_single_line env w sk wh url anon role w7 :
  gathered env w sk wh url anon role w7 ->
  Forall (fun v => single_line v = true) [sk; wh; url; anon; role].
Proof.
  intros (w1 & w2 & w3 & w4 & w5 & w6 & _ & E2 & E3 & _ & E5 & E6 & E7).
  apply createStripeWebhookSecret_ret in E3 as (out & _ & Hm).
  apply match_whsec_single_line in Hm.
  revert E2 E5 E6 E7. script. intros [= <- _] [= <- _] [= <- _] [= <- _].
  repeat (apply Forall_cons; split; [try apply text_single_line; assumption|]).
  apply Forall_nil_2.
Qed.

(** C2. When [main] returns, [.env] holds the six entries
    [STRIPE_SECRET_KEY], [STRIPE_WEBHOOK_SECRET], [NEXT_PUBLIC_SUPABASE_URL],
    [NEXT_PUBLIC_SUPABASE_ANON_KEY], [SUPABASE_SERVICE_ROLE_KEY] and
    [BASE_URL=http://localhost:3000], in this order, each as [KEY=VALUE]
    with the value its step returned, separated by one line feed each; the
    lines of the file are exactly these six, so none is blank and no line
    feed ends the file. *)
Theorem env_file_layout env w w' :
  main env w = (Ret tt, w') ->
  exists sk wh url anon role w7 data,
    gathered env w sk wh url anon role w7 /\
    dotenv w' = Some data /\
    data = "STRIPE_SECRET_KEY=" +:+ sk +:+ nl +:+
           "STRIPE_WEBHOOK_SECRET=" +:+ wh +:+ nl +:+
           "NEXT_PUBLIC_SUPABASE_URL=" +:+ url +:+ nl +:+
           "NEXT_PUBLIC_SUPABASE_ANON_KEY=" +:+ anon +:+ nl +:+
           "SUPABASE_SERVICE_ROLE_KEY=" +:+ role +:+ nl +:+
           "BASE_URL=http://localhost:3000" /\
    lines data = [ "STRIPE_SECRET_KEY=" +:+ sk;
                   "STRIPE_WEBHOOK_SECRET=" +:+ wh;
                   "NEXT_PUBLIC_SUPABASE_URL=" +:+ url;
                   "NEXT_PUBLIC_SUPABASE_ANON_KEY=" +:+ anon;
                   "SUPABASE_SERVICE_ROLE_KEY=" +:+ role;
                   "BASE_URL=http://localhost:3000" ].
Proof.
  intros Hmain.
  destruct (main_cases env w)
    as [(sk & wh & url & anon & role & w7 & G & _ & E) | [F _]];
    [| now rewrite Hmain in F].
  exists sk, wh, url, anon, role, w7.
  exists (join nl (map render_entry (config sk wh url anon role))).
  split; [exact G|]. split; [|split].
  - destruct (assembly_cases env (config sk wh url anon role) w7)
      as [(_ & D & _) | [R _]]; cbv zeta in *; rewrite <- E, Hmain in *.
    + exact D.
    + discriminate.
  - reflexivity.
  - rewrite lines_join; [reflexivity | discriminate |].
    pose proof (gathered_single_line _ _ _ _ _ _ _ _ G) as H.
    repeat (apply Forall_cons in H as [? H]).
    repeat (apply Forall_cons; split;
            [unfold render_entry; simpl fst; simpl snd;
             rewrite !single_line_app; simpl single_line at 1;
             try assumption; reflexivity|]).
    apply Forall_nil_2.
Qed.

(** ** The statements at work on scripted runs *)

Lemma version_probe_failure_witness :
  exec_result env_not_installed (execs start) "stripe --version" = inr 127 /\
  exists w' evs,
    main env_not_installed start = (Exit 1, w') /\
    run env_not_installed start = (1, w') /\
    since start w' evs /\ count is_question evs = 0%nat /\
    count is_exec evs = 1%nat.
Proof.
  split; [reflexivity|].
  apply (version_probe_failure_exits_before_any_prompt env_not_installed start 127).
  reflexivity.
Defined.

Lemma authentication_probe_failure_witness :
  exec_result env_login_then_ok (execs start) "stripe --version"
    = ok "stripe version 1.21.8" /\
  exec_result env_login_then_ok (S (execs start)) "stripe config --list"
    = inr 1 /\
  exists w' evs,
    checkStripeCLI env_login_then_ok start = (Ret tt, w') /\
    since start w' evs /\ count is_probe evs = 2%nat /\
    count is_question evs = 1%nat /\
    Question ask_secret_key "sk_test_51H"
      ∈ trace (snd (main env_login_then_ok start)).
Proof.
  split; [reflexivity|]. split; [reflexivity|].
  exact (proj2 (proj2 (authentication_probe_failure env_login_then_ok start
                         _ 1 eq_refl eq_refl) eq_refl) _ eq_refl).
Defined.

Lemma project_gate_second_chance_witness :
  toLowerCase "N" = "n" /\ toLowerCase "no" <> "continue" /\
  exists w' evs,
    checkSupabaseProject env_gate_second_chance start = (Ret tt, w') /\
    since start w' evs /\
    count (asks ask_continue_again) evs = 1%nat /\
    count is_question evs = 3%nat.
Proof.
  assert (toLowerCase "no" <> "continue") as Hno by discriminate.
  split; [reflexivity|]. split; [exact Hno|].
  exact (proj1 (project_gate_second_chance env_gate_second_chance start
                  eq_refl Hno) eq_refl).
Defined.

Lemma project_gate_first_answer_witness :
  toLowerCase "maybe" <> "y" /\ toLowerCase "maybe" <> "n" /\
  exists w' evs,
    checkSupabaseProject env_gate_maybe start = (Exit 1, w') /\
    since start w' evs /\
    head evs = Some (ConsoleError invalid_input) /\
    count is_question evs = 1%nat /\
    forall B (k : unit -> M B),
      (checkSupabaseProject env_gate_maybe ≫= k) start = (Exit 1, w').
Proof.
  assert (toLowerCase "maybe" <> "y") as Hy by discriminate.
  assert (toLowerCase "maybe" <> "n") as Hn by discriminate.
  split; [exact Hy|]. split; [exact Hn|].
  exact (proj1 (project_gate_first_answer env_gate_maybe start) Hy Hn).
Defined.

Lemma env_file_layout_witness :
  fst (main env_happy start) = Ret tt /\
  dotenv (snd (main env_happy start)) =
    Some ("STRIPE_SECRET_KEY=sk_test_51H" +:+ nl +:+
          "STRIPE_WEBHOOK_SECRET=whsec_AbC123" +:+ nl +:+
          "NEXT_PUBLIC_SUPABASE_URL=https://abc.supabase.co" +:+ nl +:+
          "NEXT_PUBLIC_SUPABASE_ANON_KEY=anon-key" +:+ nl +:+
          "SUPABASE_SERVICE_ROLE_KEY=role-key" +:+ nl +:+
          "BASE_URL=http://localhost:3000") /\
  exists sk wh url anon role w7 data,
    gathered env_happy start sk wh url anon role w7 /\
    dotenv (snd (main env_happy start)) = Some data /\
    lines data = [ "STRIPE_SECRET_KEY=" +:+ sk;
                   "STRIPE_WEBHOOK_SECRET=" +:+ wh;
                   "NEXT_PUBLIC_SUPABASE_URL=" +:+ url;
                   "NEXT_PUBLIC_SUPABASE_ANON_KEY=" +:+ anon;
                   "SUPABASE_SERVICE_ROLE_KEY=" +:+ role;
                   "BASE_URL=http://localhost:3000" ].
Proof.
  assert (main env_happy start = (Ret tt, snd (main env_happy start))) as Hm
    by (vm_compute; reflexivity).
  split; [vm_compute; reflexivity|]. split; [vm_compute; reflexivity|].
  destruct (env_file_layout env_happy start _ Hm)
    as (sk & wh & url & anon & role & w7 & data & G & D & _ & L).
  exists sk, wh, url, anon, role, w7, data.
  split; [exact G|]. split; [exact D | exact L].
Defined.

(** C4, as stated, fails.  The output [whsec_Zz whsec_AbC123] contains the
    token [whsec_AbC123], followed by nothing, and the extractor returns
    [whsec_Zz]. *)
Lemma extractor_second_token_counterexample :
  exec_result env_two_secrets (execs start) "stripe listen --print-secret"
    = ok "whsec_Zz whsec_AbC123" /\
  "whsec_Zz whsec_AbC123" = "whsec_Zz " +:+ "whsec_AbC123" +:+ "" /\
  starts_alnum "" = false /\
  fst (createStripeWebhookSecret env_two_secrets start) = Ret "whsec_Zz" /\
  fst (createStripeWebhookSecret env_two_secrets start) <> Ret "whsec_AbC123".
Proof. repeat split; try reflexivity. discriminate. Qed.

Lemma extractor_returns_first_token_witness :
  exec_result (scenario [ok listen_output] []) (execs start)
    "stripe listen --print-secret" = ok listen_output /\
  first_at "> Ready! Your webhook signing secret is " listen_output /\
  exists w',
    createStripeWebhookSecret (scenario [ok listen_output] []) start
      = (Ret "whsec_AbC123", w').
Proof.
  assert (first_at "> Ready! Your webhook signing secret is " listen_output)
    as Hf by (apply no_match_before_first_at; reflexivity).
  split; [reflexivity|]. split; [exact Hf|].
  exact (proj1 (proj2 (extractor_returns_first_token
                         (scenario [ok listen_output] []) start
                         {| stdout := listen_output; stderr := "" |} eq_refl))
           "> Ready! Your webhook signing secret is " " (^C to quit)"
           eq_refl eq_refl Hf).
Defined.

End SetupTheory.

(** * Properties of the key helper and of the middleware *)

Module SupabaseTheory.
Import JS Supabase.

Lemma falsy_true (v : option string) :
  falsy v = true <-> v = None \/ v = Some "".
Proof.
  destruct v as [s|]; simpl.
  - rewrite String.eqb_eq. split; [intros ->; now right | now intros [|[= ->]]].
  - split; [now left | reflexivity].
Qed.

Lemma falsy_false (v : option string) :
  falsy v = false <-> exists s, v = Some s /\ s <> "".
Proof.
  destruct v as [s|]; simpl.
  - rewrite String.eqb_neq. split; [intros H; now exists s | now intros (? & [= <-] & H)].
  - split; [discriminate | now intros (? & ? & _)].
Qed.

(** ** The key helper *)

(** C9. [getSupabaseKeys] throws when [NEXT_PUBLIC_SUPABASE_URL] or
    [NEXT_PUBLIC_SUPABASE_ANON_KEY] is absent from the environment or
    empty (naming the first of the two that is); when both are present and
    not empty it returns exactly these two values; and it returns in no
    other case. *)
Theorem getSupabaseKeys_spec (process_env : gmap string string) :
  let url := process_env !! "NEXT_PUBLIC_SUPABASE_URL" in
  let key := process_env !! "NEXT_PUBLIC_SUPABASE_ANON_KEY" in
  (url = None \/ url = Some "" \/ key = None \/ key = Some "" ->
   exists message, getSupabaseKeys process_env = Thrown message) /\
  (url = None \/ url = Some "" ->
   getSupabaseKeys process_env = Thrown "NEXT_PUBLIC_SUPABASE_URL is not defined") /\
  ((exists u, url = Some u /\ u <> "") -> key = None \/ key = Some "" ->
   getSupabaseKeys process_env
     = Thrown "NEXT_PUBLIC_SUPABASE_ANON_KEY is not defined") /\
  (forall u k, url = Some u -> u <> "" -> key = Some k -> k <> "" ->
   getSupabaseKeys process_env
     = Ok {| publicSupabaseUrl := Some u; publicSupabaseAnonKey := Some k |}) /\
  (forall keys, getSupabaseKeys process_env = Ok keys ->
   exists u k, url = Some u /\ u <> "" /\ key = Some k /\ k <> "" /\
     keys = {| publicSupabaseUrl := Some u; publicSupabaseAnonKey := Some k |}).
Proof.
  intros url key. unfold getSupabaseKeys. fold url key.
  destruct (falsy url) eqn:Fu.
  - apply falsy_true in Fu. repeat split.
    + intros _. now eexists.
    + intros (u & Hu & Hne) _. destruct Fu as [Fu|Fu]; congruence.
    + intros u k Hu Hne. destruct Fu as [Fu|Fu]; congruence.
    + discriminate.
  - apply falsy_false in Fu as (u & Hu & Hne).
    destruct (falsy key) eqn:Fk.
    + apply falsy_true in Fk. repeat split.
      * intros _. now eexists.
      * intros [H|H]; congruence.
      * intros k' u' ?. destruct Fk as [Fk|Fk]; congruence.
      * discriminate.
    + apply falsy_false in Fk as (k & Hk & Hnk). repeat split.
      * intros [H|[H|[H|H]]]; congruence.
      * intros [H|H]; congruence.
      * intros _ [H|H]; congruence.
      * intros u' k' ? ? ? ?. congruence.
      * intros keys [= <-]. exists u, k. now rewrite Hu, Hk.
Qed.

Lemma getSupabaseKeys_spec_witness :
  configured !! "NEXT_PUBLIC_SUPABASE_URL" = Some "https://abc.supabase.co" /\
  configured !! "NEXT_PUBLIC_SUPABASE_ANON_KEY" = Some "anon-key" /\
  getSupabaseKeys configured
    = Ok {| publicSupabaseUrl := Some "https://abc.supabase.co";
            publicSupabaseAnonKey := Some "anon-key" |} /\
  getSupabaseKeys ∅ = Thrown "NEXT_PUBLIC_SUPABASE_URL is not defined".
Proof.
  assert (configured !! "NEXT_PUBLIC_SUPABASE_URL"
            = Some "https://abc.supabase.co") as Hu by (vm_compute; reflexivity).
  assert (configured !! "NEXT_PUBLIC_SUPABASE_ANON_KEY" = Some "anon-key")
    as Hk by (vm_compute; reflexivity).
  split; [exact Hu|]. split; [exact Hk|]. split.
  - apply (proj1 (proj2 (proj2 (proj2 (getSupabaseKeys_spec configured)))) _ _
             Hu ltac:(discriminate) Hk ltac:(discriminate)).
  - apply (proj1 (proj2 (getSupabaseKeys_spec ∅))). left. apply lookup_empty.
Defined.

(** ** The middleware *)

Section MiddlewareTheory.
Context {User Options : Type}.
Context (auth_getUser : option string -> option string
                        -> Sdk (Options := Options) (option User)).

Lemma kind_foldl_response_set (cs : list (CookieToSet (Options := Options))) :
  forall r, kind (foldl response_set r cs) = kind r.
Proof. induction cs as [|c cs IH]; intros r; simpl; [reflexivity | now rewrite IH]. Qed.

Lemma cookies_foldl_response_set (cs : list (CookieToSet (Options := Options))) :
  forall r,
    response_cookies (foldl response_set r cs)
    = foldl (fun m c => <[name c := (value c, options c)]> m)
        (response_cookies r) cs.
Proof. induction cs as [|c cs IH]; intros r; simpl; [reflexivity | now rewrite IH]. Qed.

(** The closure variables when the conversation is over: the request has
    the cookies of all the [setAll] calls, in order; the response is the
    one made by the last call, or the first one when there was none. *)
Lemma run_sdk_closure {A} (t : Sdk (Options := Options) A) : forall st,
  let calls := setAll_calls t (request_cookies st) in
  let rc := foldl (foldl request_set) (request_cookies st) calls in
  snd (run_sdk t st) =
    {| request_cookies := rc;
       supabaseResponse :=
         match last calls with
         | None => supabaseResponse st
         | Some cs => foldl response_set (NextResponse_next rc) cs
         end |}.
Proof.
  induction t as [a | k IH | cs k IH]; intros st; simpl.
  - now destruct st.
  - apply IH.
  - rewrite IH. simpl.
    destruct (setAll_calls k (foldl request_set (request_cookies st) cs))
      as [|cs' calls] eqn:E; [reflexivity|].
    change (last (cs :: cs' :: calls)) with (last (cs' :: calls)).
    destruct (last (cs' :: calls)) eqn:L; [reflexivity|].
    apply last_None in L. discriminate.
Qed.

(** C10, as the code has it.  When [getSupabaseKeys] throws, so does the
    middleware, whatever the request.  When it returns: a request for which
    the SDK finds no user and whose path starts neither with [/sign-in] nor
    with [/sign-up] is answered with a redirect to the request URL with the
    path [/sign-in]; every other request is answered with the pass-through
    response, which forwards the request cookies updated by all the
    [setAll] calls of the SDK and carries the cookies of the last of these
    calls. *)
Theorem updateSession_spec (process_env : gmap string string)
    (request : NextRequest) :
  match getSupabaseKeys process_env with
  | Thrown message =>
      updateSession auth_getUser process_env request = Thrown message
  | Ok keys =>
      let sdk := auth_getUser (publicSupabaseUrl keys) (publicSupabaseAnonKey keys) in
      let user := fst (run_sdk sdk (initial request)) in
      let calls := setAll_calls sdk (cookies request) in
      let path := pathname (nextUrl request) in
      (user = None -> startsWith path "/sign-in" = false ->
       startsWith path "/sign-up" = false ->
       updateSession auth_getUser process_env request
         = Ok (NextResponse_redirect (set_pathname "/sign-in" (nextUrl request)))) /\
      (user <> None \/ startsWith path "/sign-in" = true \/
       startsWith path "/sign-up" = true ->
       exists response,
         updateSession auth_getUser process_env request = Ok response /\
         kind response
           = PassThrough (foldl (foldl request_set) (cookies request) calls) /\
         response_cookies response
           = match last calls with
             | None => ∅
             | Some cs => jar cs
             end)
  end.
Proof.
  unfold updateSession. destruct (getSupabaseKeys process_env) as [keys|message];
    [|reflexivity].
  cbv zeta.
  pose proof (run_sdk_closure
                (auth_getUser (publicSupabaseUrl keys) (publicSupabaseAnonKey keys))
                (initial request)) as Hst.
  cbv zeta in Hst. unfold initial in *.
  destruct (run_sdk _ _) as [user st]. simpl in *. subst st. split.
  - intros -> -> ->. reflexivity.
  - intros H.
    assert (is_null user && negb (startsWith (pathname (nextUrl request)) "/sign-in")
            && negb (startsWith (pathname (nextUrl request)) "/sign-up") = false)
      as ->.
    { destruct H as [H|[->| ->]].
      - destruct user; [reflexivity | congruence].
      - now rewrite andb_false_r.
      - now rewrite andb_false_r. }
    eexists. split; [reflexivity|]. simpl.
    destruct (last _) as [cs|] eqn:L; simpl.
    + rewrite kind_foldl_response_set, cookies_foldl_response_set. now split.
    + apply last_None in L. rewrite L. now split.
Qed.

End MiddlewareTheory.

(** C10, as stated, fails.  With an empty environment the request for
    [/sign-in], whose path starts with [/sign-in], gets no response at
    all: the middleware throws. *)
Lemma updateSession_unconfigured_counterexample :
  startsWith (pathname (nextUrl sign_in_request)) "/sign-in" = true /\
  updateSession anonymous ∅ sign_in_request
    = Thrown "NEXT_PUBLIC_SUPABASE_URL is not defined" /\
  forall response, updateSession anonymous ∅ sign_in_request <> Ok response.
Proof. repeat split. discriminate. Qed.

Lemma updateSession_spec_witness :
  getSupabaseKeys configured
    = Ok {| publicSupabaseUrl := Some "https://abc.supabase.co";
            publicSupabaseAnonKey := Some "anon-key" |} /\
  updateSession anonymous configured dashboard_request
    = Ok (NextResponse_redirect
            {| origin := "http://localhost:3000"; pathname := "/sign-in";
               search := "?tab=billing"; fragment := "" |}) /\
  exists response,
    updateSession anonymous configured sign_in_request = Ok response /\
    kind response = PassThrough ∅ /\ response_cookies response = ∅.
Proof.
  assert (getSupabaseKeys configured
    = Ok {| publicSupabaseUrl := Some "https://abc.supabase.co";
            publicSupabaseAnonKey := Some "anon-key" |}) as Hk
    by (vm_compute; reflexivity).
  split; [exact Hk|].
  pose proof (updateSession_spec anonymous configured dashboard_request) as Hd.
  pose proof (updateSession_spec anonymous configured sign_in_request) as Hs.
  rewrite Hk in Hd, Hs. split.
  - exact (proj1 Hd eq_refl eq_refl eq_refl).
  - exact (proj2 Hs (or_intror (or_introl eq_refl))).
Defined.

End SupabaseTheory.

(** * Further properties of the setup script *)

Module SetupProperties.
Import JS Setup Scenarios JSTheory SetupTheory.

(** ** Which answers are a yes or a no *)

Lemma toLowerCase_empty s : toLowerCase s = "" <-> s = "".
Proof. destruct s; simpl; split; intros H; congruence. Qed.

Ltac all_chars c :=
  destruct c as [[] [] [] [] [] [] [] []]; vm_compute;
  (split; [intros H; first [discriminate H | now left | now right]
          | intros [H|H]; first [discriminate H | reflexivity]]).

Lemma lower_char_y c : lower_char c = "y"%char <-> c = "y"%char \/ c = "Y"%char.
Proof. all_chars c. Qed.

Lemma lower_char_n c : lower_char c = "n"%char <-> c = "n"%char \/ c = "N"%char.
Proof. all_chars c. Qed.

Lemma toLowerCase_y a : toLowerCase a = "y" <-> says_yes a.
Proof.
  unfold says_yes. destruct a as [|c a]; simpl.
  - split; [discriminate | intros [|]; discriminate].
  - split.
    + intros [= Hc Ha]. apply toLowerCase_empty in Ha as ->.
      apply lower_char_y in Hc as [->| ->]; [now left | now right].
    + intros [[= -> ->]|[= -> ->]]; reflexivity.
Qed.

Lemma toLowerCase_n a : toLowerCase a = "n" <-> says_no a.
Proof.
  unfold says_no. destruct a as [|c a]; simpl.
  - split; [discriminate | intros [|]; discriminate].
  - split.
    + intros [= Hc Ha]. apply toLowerCase_empty in Ha as ->.
      apply lower_char_n in Hc as [->| ->]; [now left | now right].
    + intros [[= -> ->]|[= -> ->]]; reflexivity.
Qed.

Lemma strict_ne_is_true a b : strict_ne a b = true <-> a <> b.
Proof. unfold strict_ne. now rewrite negb_true_iff, String.eqb_neq. Qed.

Lemma strict_ne_is_false a b : strict_ne a b = false <-> a = b.
Proof. unfold strict_ne. now rewrite negb_false_iff, String.eqb_eq. Qed.

(** ** The external tool verifier, in full *)

(** X1. [checkStripeCLI] never throws.  It returns exactly when the tool
    answers [--version] and either the first authentication probe succeeds
    or the operator answers [y] or [Y] and the second probe succeeds; in
    every other case it ends the process with status 1.  On the way it
    runs between one and three commands, asks at most one question and
    writes nothing. *)
Theorem checkStripeCLI_returns_iff_verified env w :
  exists w' evs,
    ((verified env w /\ checkStripeCLI env w = (Ret tt, w')) \/
     (~ verified env w /\ checkStripeCLI env w = (Exit 1, w'))) /\
    since w w' evs /\
    (1 <= count is_exec evs <= 3)%nat /\
    (count is_question evs <= 1)%nat /\
    count is_write evs = 0%nat.
Proof.
  unfold verified. script.
  destruct (exec_result env (count is_exec (trace w)) "stripe --version")
    as [v|c] eqn:Ev; simpl.
  - destruct (exec_result env (S (count is_exec (trace w))) "stripe config --list")
      as [v1|c1] eqn:Ep; simpl.
    + eexists _, _. split.
      { left. split; [|reflexivity].
        split; [now exists v | left; now exists v1]. }
      split; [new_events | simpl; lia].
    + destruct (strict_ne _ "y") eqn:Hy; simpl.
      * eexists _, _. split.
        { right. split; [|reflexivity].
          apply strict_ne_is_true in Hy.
          intros [_ [[v' Hv']|[Hyes _]]]; [congruence|].
          now apply toLowerCase_y in Hyes. }
        split; [new_events | simpl; lia].
      * apply strict_ne_is_false, toLowerCase_y in Hy.
        destruct (exec_result env (S (S (count is_exec (trace w))))
                    "stripe config --list") as [v2|c2] eqn:Ea; simpl.
        -- eexists _, _. split.
           { left. split; [|reflexivity].
             split; [now exists v | right; split; [exact Hy | now exists v2]]. }
           split; [new_events | simpl; lia].
        -- eexists _, _. split.
           { right. split; [|reflexivity].
             intros [_ [[v' Hv']|[_ [v' Hv']]]]; congruence. }
           split; [new_events | simpl; lia].
  - eexists _, _. split.
    { right. split; [|reflexivity]. intros [[v Hv] _]. congruence. }
    split; [new_events | simpl; lia].
Qed.

(** X2. After a failed authentication probe the probe is run again exactly
    when the operator's answer is [y] or [Y]: any other answer, [yes] or
    an answer with a space among them, is taken for a no. *)
Theorem reprobe_iff_says_yes env w v code :
  exec_result env (execs w) "stripe --version" = inl v ->
  exec_result env (S (execs w)) "stripe config --list" = inr code ->
  exists o w' evs,
    checkStripeCLI env w = (o, w') /\ since w w' evs /\
    (count is_probe evs = 2%nat <->
     says_yes (text (answer env (asked w) ask_authenticated))) /\
    (count is_probe evs = 1%nat <->
     ~ says_yes (text (answer env (asked w) ask_authenticated))).
Proof.
  intros Hv Hp. script. rewrite Hv. simpl. rewrite Hp. simpl.
  destruct (strict_ne _ "y") eqn:Hy; simpl.
  - apply strict_ne_is_true in Hy. rewrite toLowerCase_y in Hy.
    eexists _, _, _. split; [reflexivity|]. split; [new_events|].
    simpl. split; split; try discriminate; tauto.
  - apply strict_ne_is_false, toLowerCase_y in Hy.
    destruct (exec_result env (S (S (count is_exec (trace w))))
                "stripe config --list"); simpl;
      (eexists _, _, _; split; [reflexivity|]; split; [new_events|];
       simpl; split; split; try discriminate; tauto).
Qed.

(** ** The project existence gate, in full *)

(** X3. [checkSupabaseProject] never throws.  It returns exactly when the
    first answer is [y] or [Y], or the first answer is [n] or [N] and the
    first or the second confirmation is [continue] in any mix of cases; in
    every other case it ends the process with status 1.  It asks between
    one and three questions, runs no command and writes nothing. *)
Theorem checkSupabaseProject_returns_iff_confirmed env w :
  exists w' evs,
    ((confirmed env w /\ checkSupabaseProject env w = (Ret tt, w')) \/
     (~ confirmed env w /\ checkSupabaseProject env w = (Exit 1, w'))) /\
    since w w' evs /\
    (1 <= count is_question evs <= 3)%nat /\
    count is_exec evs = 0%nat /\
    count is_write evs = 0%nat.
Proof.
  unfold confirmed. script.
  destruct (strict_eq_spec
              (toLowerCase (text (answer env (count is_question (trace w))
                 "Do you already have a Supabase project? (y/n): "))) "n")
    as [Hn|Hn]; simpl.
  - assert (~ says_yes (text (answer env (count is_question (trace w))
                 "Do you already have a Supabase project? (y/n): "))) as Hy.
    { intros H%toLowerCase_y. congruence. }
    apply toLowerCase_n in Hn.
    destruct (strict_ne _ "continue") eqn:H1; simpl.
    + apply strict_ne_is_true in H1.
      destruct (strict_ne _ "continue") eqn:H2; simpl.
      * apply strict_ne_is_true in H2. eexists _, _. split.
        { right. split; [|reflexivity]. intros [H|[_ [H|H]]]; contradiction. }
        split; [new_events | simpl; lia].
      * apply strict_ne_is_false in H2. eexists _, _. split.
        { left. split; [|reflexivity]. right. split; [exact Hn | now right]. }
        split; [new_events | simpl; lia].
    + apply strict_ne_is_false in H1. eexists _, _. split.
      { left. split; [|reflexivity]. right. split; [exact Hn | now left]. }
      split; [new_events | simpl; lia].
  - rewrite toLowerCase_n in Hn.
    destruct (strict_eq_spec
                (toLowerCase (text (answer env (count is_question (trace w))
                   "Do you already have a Supabase project? (y/n): "))) "y")
      as [Hy|Hy]; simpl.
    + apply toLowerCase_y in Hy. eexists _, _. split.
      { left. split; [|reflexivity]. now left. }
      split; [new_events | simpl; lia].
    + rewrite toLowerCase_y in Hy. eexists _, _. split.
      { right. split; [|reflexivity]. intros [H|[H _]]; contradiction. }
      split; [new_events | simpl; lia].
Qed.

(** X4. After the answer [n] (in either case), a first confirmation that is
    [continue] (in any mix of cases) makes the gate return at once: two
    questions were asked and the second confirmation prompt was never
    issued. *)
Theorem project_gate_first_chance env w :
  says_no (text (answer env (asked w) ask_project)) ->
  toLowerCase (text (answer env (S (asked w)) ask_continue)) = "continue" ->
  exists w' evs,
    checkSupabaseProject env w = (Ret tt, w') /\ since w w' evs /\
    count is_question evs = 2%nat /\
    count (asks ask_continue_again) evs = 0%nat.
Proof.
  intros H0%toLowerCase_n H1. script.
  rewrite (strict_eq_true _ _ H0). simpl. rewrite (strict_ne_false _ _ H1).
  eexists _, _. split; [reflexivity|]. split; [new_events|]. split; reflexivity.
Qed.

(** ** The webhook secret extractor, in full *)

(** X5. [createStripeWebhookSecret] never ends the process: it returns or
    throws.  It runs exactly one command and asks nothing.  When the
    command fails, what is thrown is the failure of the command itself,
    with its status.  The note for Windows is printed exactly when the
    extractor throws and the platform is [win32]. *)
Theorem createStripeWebhookSecret_effects env w :
  exists o w' evs,
    createStripeWebhookSecret env w = (o, w') /\ since w w' evs /\
    (forall c, o <> Exit c) /\
    (forall code,
       exec_result env (execs w) "stripe listen --print-secret" = inr code ->
       o = Throw (ExecFailure "stripe listen --print-secret" code)) /\
    count is_exec evs = 1%nat /\ count is_question evs = 0%nat /\
    (count (logs windows_note) evs = 1%nat <->
     failed o /\ platform env = "win32") /\
    (count (logs windows_note) evs = 0%nat <->
     ~ (failed o /\ platform env = "win32")).
Proof.
  script. unfold windows_note.
  destruct (exec_result env (count is_exec (trace w))
              "stripe listen --print-secret") as [out|code] eqn:Ee; simpl.
  - destruct (match_whsec (stdout out)) as [m|]; simpl.
    + eexists _, _, _. split; [reflexivity|]. split; [new_events|].
      simpl. repeat split; try discriminate; try tauto.
    + destruct (strict_eq_spec (platform env) "win32") as [Hp|Hp]; simpl;
        (eexists _, _, _; split; [reflexivity|]; split; [new_events|];
         simpl; repeat split; try discriminate; try tauto).
  - destruct (strict_eq_spec (platform env) "win32") as [Hp|Hp]; simpl;
      (eexists _, _, _; split; [reflexivity|]; split; [new_events|];
       simpl; repeat split; try discriminate; try tauto;
       try (intros ? [= <-]; reflexivity)).
Qed.

(** ** How much a run can do *)

Section AtMost.
Context (p : Event -> bool).

(** The kind [p] does not look at what was answered or written. *)
Hypothesis p_question : forall q a, p (Question q a) = p (Question q "").
Hypothesis p_write : forall data, p (WriteFile data) = p (WriteFile "").

Lemma count_one ev : count p [ev] = weight p ev.
Proof. unfold weight. simpl. destruct (p ev); reflexivity. Qed.

Lemma at_most_le {A} (m : M A) n n' :
  (n <= n')%nat -> at_most p n m -> at_most p n' m.
Proof. intros Hle H w. destruct (H w) as (evs & Hs & Hc). exists evs. split; [exact Hs | lia]. Qed.

Lemma at_most_mret {A} (a : A) : at_most p 0 (mret a).
Proof. intros w. now exists []. Qed.

Lemma at_most_throw {A} e : at_most p 0 (throw (A := A) e).
Proof. intros w. now exists []. Qed.

Lemma at_most_exit {A} c : at_most p 0 (process_exit (A := A) c).
Proof. intros w. now exists []. Qed.

Lemma at_most_emit ev : at_most p (weight p ev) (emit ev).
Proof. intros w. exists [ev]. split; [reflexivity | now rewrite count_one]. Qed.

Lemma at_most_execAsync env cmd :
  at_most p (weight p (Exec cmd)) (execAsync env cmd).
Proof.
  intros w. unfold execAsync. exists [Exec cmd].
  destruct (exec_result _ _ _); (split; [reflexivity | now rewrite count_one]).
Qed.

Lemma at_most_question env q :
  at_most p (weight p (Question q "")) (question env q).
Proof.
  intros w. eexists [_]. split; [reflexivity|].
  rewrite count_one. unfold weight. now rewrite p_question.
Qed.

Lemma at_most_writeFile env data :
  at_most p (weight p (WriteFile "")) (writeFile_dotenv env data).
Proof.
  intros w. unfold writeFile_dotenv. exists [WriteFile data].
  destruct (write_fails _ _ _);
    (split; [reflexivity | rewrite count_one; unfold weight; now rewrite p_write]).
Qed.

Lemma at_most_bind {A B} (m : M A) (k : A -> M B) n1 n2 :
  at_most p n1 m -> (forall a, at_most p n2 (k a)) ->
  at_most p (n1 + n2) (m ≫= k).
Proof.
  intros Hm Hk w. destruct (Hm w) as (e1 & H1 & C1). unfold mbind, M_bind.
  destruct (m w) as [[a|e|c] w1]; simpl in *;
    try (exists e1; split; [exact H1 | lia]).
  destruct (Hk a w1) as (e2 & H2 & C2). exists (e2 ++ e1). unfold since in *.
  split; [now rewrite H2, H1, app_assoc | rewrite count_app; lia].
Qed.

Lemma at_most_try_catch {A} (body : M A) handler n1 n2 :
  at_most p n1 body -> (forall e, at_most p n2 (handler e)) ->
  at_most p (n1 + n2) (try_catch body handler).
Proof.
  intros Hm Hk w. destruct (Hm w) as (e1 & H1 & C1). unfold try_catch.
  destruct (body w) as [[a|e|c] w1]; simpl in *;
    try (exists e1; split; [exact H1 | lia]).
  destruct (Hk e w1) as (e2 & H2 & C2). exists (e2 ++ e1). unfold since in *.
  split; [now rewrite H2, H1, app_assoc | rewrite count_app; lia].
Qed.

Lemma at_most_if {A} (b : bool) (m1 m2 : M A) n1 n2 :
  at_most p n1 m1 -> at_most p n2 m2 ->
  at_most p (Nat.max n1 n2) (if b then m1 else m2).
Proof.
  intros H1 H2. destruct b; [apply (at_most_le _ n1) | apply (at_most_le _ n2)];
    try assumption; lia.
Qed.

Lemma at_most_match {A B} (x : option B) (none : M A) (some : B -> M A) n1 n2 :
  at_most p n1 none -> (forall b, at_most p n2 (some b)) ->
  at_most p (Nat.max n1 n2)
    (match x with Some b => some b | None => none end).
Proof.
  intros H1 H2. destruct x; [apply (at_most_le _ n2) | apply (at_most_le _ n1)];
    try apply H2; try assumption; lia.
Qed.

End AtMost.

(** Adds up the events of the kind [p] along a step of the script. *)
Ltac add_up :=
  repeat lazymatch goal with
    | |- at_most _ _ (mbind _ _) => eapply at_most_bind; [| intros ?]
    | |- at_most _ _ (try_catch _ _) => eapply at_most_try_catch; [| intros ?]
    | |- at_most _ _ (mret _) => eapply at_most_mret
    | |- at_most _ _ (throw _) => eapply at_most_throw
    | |- at_most _ _ (process_exit _) => eapply at_most_exit
    | |- at_most _ _ (emit _) => eapply at_most_emit
    | |- at_most _ _ (execAsync _ _) => eapply at_most_execAsync
    | |- at_most _ _ (question _ _) =>
        eapply at_most_question; intros; reflexivity
    | |- at_most _ _ (writeFile_dotenv _ _) =>
        eapply at_most_writeFile; intros; reflexivity
    | |- at_most _ _ (if _ then _ else _) => eapply at_most_if
    | |- at_most _ _ (match _ with Some _ => _ | None => _ end) =>
        eapply at_most_match; [| intros ?]
    end.

Ltac unfold_steps :=
  unfold main, checkStripeCLI, getStripeSecretKey, createStripeWebhookSecret,
    checkSupabaseProject, getSupabaseKeysApiUrl, getSupabaseKeysAnonKey,
    getSupabaseKeysServiceRoleKey, writeEnvFile, console_log, console_error;
  cbv zeta.

(** X6. Whatever the tool and the operator do, a run of [main] asks at most
    eight questions, runs at most four commands and calls [fs.writeFile]
    at most once. *)
Theorem main_effect_bounds env :
  at_most is_question 8 (main env) /\
  at_most is_exec 4 (main env) /\
  at_most is_write 1 (main env).
Proof.
  repeat split; (eapply at_most_le; [| unfold_steps; add_up]);
    vm_compute; lia.
Qed.

Lemma main_effect_bounds_witness :
  count is_question (trace (snd (main env_longest start))) = 8%nat /\
  count is_exec (trace (snd (main env_longest start))) = 4%nat /\
  exists evs,
    since start (snd (main env_longest start)) evs /\
    (count is_question evs <= 8)%nat.
Proof.
  split; [vm_compute; reflexivity|]. split; [vm_compute; reflexivity|].
  exact (proj1 (main_effect_bounds env_longest) start).
Defined.

(** ** What a run prints when it is over *)

Lemma silent_refl p w : silent p w w.
Proof. now exists []. Qed.



(** The five steps before the assembly are run one after the other along
    any relation they respect. *)
Section Pipeline.
Context (R : World -> World -> Prop) (env : Env).
Hypothesis R_trans : forall a b c, R a b -> R b c -> R a c.
Hypothesis R_checkStripeCLI : respects R (checkStripeCLI env).
Hypothesis R_getStripeSecretKey : respects R (getStripeSecretKey env).
Hypothesis R_createStripeWebhookSecret : respects R (createStripeWebhookSecret env).
Hypothesis R_checkSupabaseProject : respects R (checkSupabaseProject env).
Hypothesis R_getSupabaseKeysApiUrl : respects R (getSupabaseKeysApiUrl env).
Hypothesis R_getSupabaseKeysAnonKey : respects R (getSupabaseKeysAnonKey env).
Hypothesis R_getSupabaseKeysServiceRoleKey :
  respects R (getSupabaseKeysServiceRoleKey env).


End Pipeline.



(** ** What the file says *)

Lemma render_entry_injective k1 : forall k2 v1 v2,
  eq_free k1 = true -> eq_free k2 = true ->
  render_entry (k1, v1) = render_entry (k2, v2) -> k1 = k2 /\ v1 = v2.
Proof.
  unfold render_entry. simpl fst. simpl snd.
  induction k1 as [|c k1 IH]; intros [|c2 k2] v1 v2 H1 H2 E;
    simpl in H1, H2;
    change (String ?c ?k +:+ ?r) with (String c (k +:+ r)) in E;
    change ("" +:+ ?r) with r in E.
  - injection E as E. now split.
  - injection E as <- _. discriminate H2.
  - injection E as -> _. discriminate H1.
  - injection E as <- E.
    apply andb_true_iff in H1 as [_ H1]. apply andb_true_iff in H2 as [_ H2].
    destruct (IH _ _ _ H1 H2 E) as [-> ->]. now split.
Qed.

Lemma render_entry_single_line e :
  plain_entry e = true -> single_line (render_entry e) = true.
Proof.
  unfold plain_entry, render_entry.
  intros [[_ Hk]%andb_true_iff Hv]%andb_true_iff.
  now rewrite !single_line_app, Hk, Hv.
Qed.

Lemma render_entry_not_empty e : render_entry e <> "".
Proof.
  unfold render_entry. destruct (fst e); discriminate.
Qed.

Lemma map_render_entry_injective vars1 : forall vars2,
  Forall (fun e => plain_entry e = true) vars1 ->
  Forall (fun e => plain_entry e = true) vars2 ->
  map render_entry vars1 = map render_entry vars2 -> vars1 = vars2.
Proof.
  induction vars1 as [|[k1 v1] vars1 IH]; intros [|[k2 v2] vars2] H1 H2 E;
    try discriminate; [reflexivity|].
  injection E as E Et.
  apply Forall_cons in H1 as [P1 H1]. apply Forall_cons in H2 as [P2 H2].
  unfold plain_entry in P1, P2. simpl in P1, P2.
  apply andb_true_iff in P1 as [[P1 _]%andb_true_iff _].
  apply andb_true_iff in P2 as [[P2 _]%andb_true_iff _].
  destruct (render_entry_injective _ _ _ _ P1 P2 E) as [-> ->].
  now rewrite (IH _ H1 H2 Et).
Qed.

(** X8. The file keeps everything that was put into it.  For entries whose
    keys have no equals sign and whose keys and values fit on a line: the
    lines of the text written by [writeEnvFile] are the entries, each as
    [KEY=VALUE], in order; and two calls that succeed and leave the same
    file were given the same entries. *)
Theorem writeEnvFile_keeps_entries env1 env2 vars1 vars2 w1 w2 :
  Forall (fun e => plain_entry e = true) vars1 ->
  Forall (fun e => plain_entry e = true) vars2 ->
  fst (writeEnvFile env1 vars1 w1) = Ret tt ->
  fst (writeEnvFile env2 vars2 w2) = Ret tt ->
  dotenv (snd (writeEnvFile env1 vars1 w1)) = Some (envContent vars1) /\
  (vars1 <> [] -> lines (envContent vars1) = map render_entry vars1) /\
  (dotenv (snd (writeEnvFile env1 vars1 w1))
     = dotenv (snd (writeEnvFile env2 vars2 w2)) -> vars1 = vars2).
Proof.
  intros P1 P2. unfold envContent. script.
  destruct (write_fails env1 (dotenv w1) _); [discriminate|].
  destruct (write_fails env2 (dotenv w2) _); [discriminate|]. simpl.
  intros _ _. split; [reflexivity|].
  assert (forall vars, Forall (fun e => plain_entry e = true) vars ->
          Forall (fun l => single_line l = true) (map render_entry vars)) as SL.
  { intros vars H. apply Forall_map. eapply Forall_impl; [exact H|].
    intros e. apply render_entry_single_line. }
  split.
  - intros Hne. apply lines_join; [|now apply SL].
    destruct vars1; [congruence | discriminate].
  - intros [= E]. apply map_render_entry_injective; try assumption.
    destruct vars1 as [|e1 vars1], vars2 as [|e2 vars2]; try reflexivity.
    + exfalso. simpl in E. destruct (map render_entry vars2);
        [now apply (render_entry_not_empty e2)|].
      unfold render_entry in E. destruct (fst e2); discriminate.
    + exfalso. simpl in E. destruct (map render_entry vars1);
        [now apply (render_entry_not_empty e1)|].
      unfold render_entry in E. destruct (fst e1); discriminate.
    + rewrite <- (lines_join (map render_entry (e1 :: vars1)));
        [|discriminate | now apply SL].
      rewrite <- (lines_join (map render_entry (e2 :: vars2)));
        [|discriminate | now apply SL].
      now rewrite E.
Qed.




(** ** The status of the process *)

(** X10. The process never ends with a status other than 0 or 1, and it
    ends with status 1 exactly when [main] ended in a call of
    [process.exit]: a run in which [main] throws ends with status 0, like
    a run in which it returns. *)
Theorem exit_status_is_0_or_1 env w :
  (fst (run env w) = 0 \/ fst (run env w) = 1) /\
  (fst (run env w) = 1 <-> exists c, fst (main env w) = Exit c) /\
  (fst (run env w) = 0 <->
   fst (main env w) = Ret tt \/ exists e, fst (main env w) = Throw e).
Proof.
  pose proof (main_exits_only_with_1 env w) as H. unfold run.
  destruct (main env w) as [[[]|e|c] w'] eqn:E; simpl.
  - split; [now left|]. split; split; try discriminate; eauto.
    intros [c [=]].
  - split; [now left|]. split; split; try discriminate; eauto.
    intros [c [=]].
  - rewrite (H c w' eq_refl). split; [now right|].
    split; split; try discriminate; eauto.
    intros [[=]|[e [=]]].
Qed.

(** ** The statements at work on scripted runs *)

Lemma reprobe_iff_says_yes_witness :
  exec_result env_login_then_ok (execs start) "stripe --version"
    = ok "stripe version 1.21.8" /\
  exec_result env_login_then_ok (S (execs start)) "stripe config --list"
    = inr 1 /\
  exists o w' evs,
    checkStripeCLI env_login_then_ok start = (o, w') /\ since start w' evs /\
    (count is_probe evs = 2%nat <-> says_yes "Y") /\
    (count is_probe evs = 1%nat <-> ~ says_yes "Y").
Proof.
  split; [reflexivity|]. split; [reflexivity|].
  exact (reprobe_iff_says_yes env_login_then_ok start _ 1 eq_refl eq_refl).
Defined.

Lemma project_gate_first_chance_witness :
  says_no "n" /\ toLowerCase "Continue" = "continue" /\
  exists w' evs,
    checkSupabaseProject env_gate_first_chance start = (Ret tt, w') /\
    since start w' evs /\ count is_question evs = 2%nat /\
    count (asks ask_continue_again) evs = 0%nat.
Proof.
  split; [now left|]. split; [reflexivity|].
  exact (project_gate_first_chance env_gate_first_chance start
           (or_introl eq_refl) eq_refl).
Defined.

Lemma writeEnvFile_keeps_entries_witness :
  Forall (fun e => plain_entry e = true)
    (config "sk_test_51H" "whsec_AbC123" "https://abc.supabase.co" "a" "r") /\
  fst (writeEnvFile env_happy
         (config "sk_test_51H" "whsec_AbC123" "https://abc.supabase.co" "a" "r")
         start) = Ret tt /\
  lines (envContent
           (config "sk_test_51H" "whsec_AbC123" "https://abc.supabase.co" "a" "r"))
    = [ "STRIPE_SECRET_KEY=sk_test_51H"; "STRIPE_WEBHOOK_SECRET=whsec_AbC123";
        "NEXT_PUBLIC_SUPABASE_URL=https://abc.supabase.co";
        "NEXT_PUBLIC_SUPABASE_ANON_KEY=a"; "SUPABASE_SERVICE_ROLE_KEY=r";
        "BASE_URL=http://localhost:3000" ].
Proof.
  assert (Forall (fun e => plain_entry e = true)
    (config "sk_test_51H" "whsec_AbC123" "https://abc.supabase.co" "a" "r"))
    as P by (repeat constructor).
  split; [exact P|]. split; [reflexivity|].
  exact (proj1 (proj2 (writeEnvFile_keeps_entries env_happy env_happy _ _
                         start start P P eq_refl eq_refl))
           ltac:(discriminate)).
Defined.


End SetupProperties.

(** * Further properties of the middleware *)

Module SupabaseProperties.
Import JS Supabase JSTheory SupabaseTheory.

Section Cookies.
Context {Options : Type}.
Implicit Types (cs : list (CookieToSet (Options := Options))).

(** Setting cookies one after the other in a map. *)
Lemma foldl_insert_other {V} (f : CookieToSet (Options := Options) -> V) cs :
  forall (m : gmap string V) n,
    n ∉ names cs ->
    foldl (fun m c => <[name c := f c]> m) m cs !! n = m !! n.
Proof.
  induction cs as [|c cs IH]; intros m n Hn; simpl; [reflexivity|].
  unfold names in *. simpl in Hn. apply not_elem_of_cons in Hn as [Hc Hn].
  rewrite (IH _ _ Hn). now apply lookup_insert_ne.
Qed.

Lemma foldl_insert_last {V} (f : CookieToSet (Options := Options) -> V) cs1 c cs2 :
  forall (m : gmap string V),
    name c ∉ names cs2 ->
    foldl (fun m c => <[name c := f c]> m) m (cs1 ++ c :: cs2) !! name c
      = Some (f c).
Proof.
  intros m Hn. rewrite foldl_app. simpl.
  rewrite (foldl_insert_other f cs2 _ _ Hn). apply lookup_insert_eq.
Qed.

Lemma foldl_insert_is_Some {V} (f : CookieToSet (Options := Options) -> V) cs :
  forall (m : gmap string V) n,
    is_Some (m !! n) ->
    is_Some (foldl (fun m c => <[name c := f c]> m) m cs !! n).
Proof.
  induction cs as [|c cs IH]; intros m n H; simpl; [exact H|].
  apply IH. destruct (decide (name c = n)) as [<-|Hne].
  - rewrite lookup_insert_eq. eauto.
  - now rewrite lookup_insert_ne.
Qed.

(** X11. What [setAll] leaves behind.  The response it makes lets the
    request through with the request cookies as they are after the call.
    A cookie named in the list is afterwards on the request with the value,
    and on the response with the value and the options, of the last entry
    with that name.  A name that is not in the list keeps its value on the
    request and is not on the response, whatever an earlier call had set
    there. *)
Theorem setAll_cookies cs (st : Closure) :
  let st' := setAll cs st in
  kind (supabaseResponse st') = PassThrough (request_cookies st') /\
  (forall cs1 c cs2,
     cs = cs1 ++ c :: cs2 -> name c ∉ names cs2 ->
     request_cookies st' !! name c = Some (value c) /\
     response_cookies (supabaseResponse st') !! name c
       = Some (value c, options c)) /\
  (forall n,
     n ∉ names cs ->
     request_cookies st' !! n = request_cookies st !! n /\
     response_cookies (supabaseResponse st') !! n = None).
Proof.
  unfold setAll. simpl. split; [|split].
  - apply kind_foldl_response_set.
  - intros cs1 c cs2 -> Hn. rewrite cookies_foldl_response_set. simpl. split.
    + apply (foldl_insert_last value cs1 c cs2 _ Hn).
    + apply (foldl_insert_last (fun c => (value c, options c)) cs1 c cs2 _ Hn).
  - intros n Hn. rewrite cookies_foldl_response_set. simpl. split.
    + apply (foldl_insert_other value cs _ _ Hn).
    + rewrite (foldl_insert_other (fun c => (value c, options c)) cs _ _ Hn).
      apply lookup_empty.
Qed.

(** All the [setAll] calls of a conversation, on the request cookies. *)
Lemma calls_keep_names (calls : list (list (CookieToSet (Options := Options)))) :
  forall (rc : gmap string string) n,
    is_Some (rc !! n) -> is_Some (foldl (foldl request_set) rc calls !! n).
Proof.
  induction calls as [|cs calls IH]; intros rc n H; simpl; [exact H|].
  apply IH. now apply (foldl_insert_is_Some value).
Qed.

Lemma calls_keep_values (calls : list (list (CookieToSet (Options := Options)))) :
  forall (rc : gmap string string) n,
    Forall (fun cs => n ∉ names cs) calls ->
    foldl (foldl request_set) rc calls !! n = rc !! n.
Proof.
  induction calls as [|cs calls IH]; intros rc n H; simpl; [reflexivity|].
  apply Forall_cons in H as [Hc H]. rewrite (IH _ _ H).
  apply (foldl_insert_other value cs _ _ Hc).
Qed.

End Cookies.

Section Requests.
Context {User Options BrowserClient : Type}.
Context (auth_getUser : option string -> option string
                        -> Sdk (Options := Options) (option User)).
Context (createBrowserClient : option string -> option string -> BrowserClient).

(** The response held by the closure lets the request through, at every
    moment of the conversation. *)
Lemma supabaseResponse_kind {A} (t : Sdk (Options := Options) A)
    (request : NextRequest) :
  kind (supabaseResponse (snd (run_sdk t (initial request))))
  = PassThrough (foldl (foldl request_set) (cookies request)
                   (setAll_calls t (cookies request))).
Proof.
  rewrite run_sdk_closure. simpl.
  destruct (last _) as [cs|] eqn:L; simpl.
  - apply kind_foldl_response_set.
  - apply last_None in L. now rewrite L.
Qed.

(** What [updateSession] returns once the keys are there. *)
Lemma updateSession_configured process_env keys (request : NextRequest) :
  getSupabaseKeys process_env = Ok keys ->
  let sdk := auth_getUser (publicSupabaseUrl keys) (publicSupabaseAnonKey keys) in
  let path := pathname (nextUrl request) in
  updateSession auth_getUser process_env request =
    if is_null (fst (run_sdk sdk (initial request)))
       && negb (startsWith path "/sign-in") && negb (startsWith path "/sign-up")
    then Ok (NextResponse_redirect (set_pathname "/sign-in" (nextUrl request)))
    else Ok (supabaseResponse (snd (run_sdk sdk (initial request)))).
Proof.
  intros Hk. unfold updateSession, initial. rewrite Hk.
  now destruct (run_sdk _ _) as [user st].
Qed.

(** X12. A redirect of the middleware goes to [/sign-in] on the same origin,
    with the query string and the fragment of the request, and carries no
    cookie.  The middleware never redirects twice: a request for the URL
    of the redirect, whatever its cookies and whatever the SDK finds, is
    let through. *)
Theorem redirect_is_let_through process_env (request : NextRequest)
    response url :
  updateSession auth_getUser process_env request = Ok response ->
  kind response = Redirect url ->
  url = set_pathname "/sign-in" (nextUrl request) /\
  response_cookies response = ∅ /\
  forall request',
    nextUrl request' = url ->
    exists response' forwarded,
      updateSession auth_getUser process_env request' = Ok response' /\
      kind response' = PassThrough forwarded.
Proof.
  destruct (getSupabaseKeys process_env) as [keys|message] eqn:Hk.
  - rewrite (updateSession_configured _ _ _ Hk). cbv zeta.
    destruct (_ && _ && _).
    + intros [= <-] [= <-]. split; [reflexivity|]. split; [reflexivity|].
      intros request' Hu. rewrite (updateSession_configured _ _ _ Hk).
      cbv zeta. rewrite Hu. simpl pathname.
      change (startsWith "/sign-in" "/sign-in") with true.
      rewrite andb_false_r. simpl. eexists _, _. split; [reflexivity|].
      apply supabaseResponse_kind.
    + intros [= <-]. rewrite supabaseResponse_kind. discriminate.
  - unfold updateSession. rewrite Hk. discriminate.
Qed.

(** X13. The middleware drops no cookie of the request.  In the response
    that lets the request through, every cookie name of the request is
    still forwarded, and a cookie that no [setAll] call of the SDK names
    is forwarded with the value it came with. *)
Theorem request_cookies_are_forwarded process_env keys (request : NextRequest)
    response forwarded :
  getSupabaseKeys process_env = Ok keys ->
  updateSession auth_getUser process_env request = Ok response ->
  kind response = PassThrough forwarded ->
  let calls := setAll_calls
                 (auth_getUser (publicSupabaseUrl keys) (publicSupabaseAnonKey keys))
                 (cookies request) in
  (forall n, is_Some (cookies request !! n) -> is_Some (forwarded !! n)) /\
  (forall n, Forall (fun cs => n ∉ names cs) calls ->
             forwarded !! n = cookies request !! n).
Proof.
  intros Hk. rewrite (updateSession_configured _ _ _ Hk). cbv zeta.
  destruct (_ && _ && _); [intros [= <-]; discriminate|].
  intros [= <-]. rewrite supabaseResponse_kind. intros [= <-]. split.
  - intros n. apply calls_keep_names.
  - intros n. apply calls_keep_values.
Qed.

(** X14. The browser client and the middleware read the same two values
    and agree on when they are unusable: [createClient] throws exactly
    when [updateSession] throws, with the same message, whatever the
    request; and when it returns, [createBrowserClient] was given the two
    values of the environment, neither of them empty. *)
Theorem createClient_agrees_with_updateSession process_env
    (request : NextRequest) :
  (forall message,
     createClient createBrowserClient process_env = Thrown message <->
     updateSession auth_getUser process_env request = Thrown message) /\
  (forall client,
     createClient createBrowserClient process_env = Ok client ->
     exists u k,
       process_env !! "NEXT_PUBLIC_SUPABASE_URL" = Some u /\ u <> "" /\
       process_env !! "NEXT_PUBLIC_SUPABASE_ANON_KEY" = Some k /\ k <> "" /\
       client = createBrowserClient (Some u) (Some k)).
Proof.
  unfold createClient. split.
  - intros message.
    destruct (getSupabaseKeys process_env) as [keys|m] eqn:Hk.
    + rewrite (updateSession_configured _ _ _ Hk). cbv zeta.
      destruct (_ && _ && _); split; discriminate.
    + unfold updateSession. rewrite Hk. split; intros [= ->]; reflexivity.
  - intros client. unfold getSupabaseKeys.
    destruct (falsy (process_env !! "NEXT_PUBLIC_SUPABASE_URL")) eqn:Fu;
      [discriminate|].
    destruct (falsy (process_env !! "NEXT_PUBLIC_SUPABASE_ANON_KEY")) eqn:Fk;
      [discriminate|].
    apply falsy_false in Fu as (u & Hu & Hne), Fk as (k & Hk & Hnk).
    intros [= <-]. exists u, k. simpl. now rewrite Hu, Hk.
Qed.

End Requests.

(** ** The statements at work on examples *)

Lemma redirect_is_let_through_witness :
  updateSession anonymous configured dashboard_request
    = Ok (NextResponse_redirect
            (set_pathname "/sign-in" (nextUrl dashboard_request))) /\
  exists response' forwarded,
    updateSession anonymous configured
      {| nextUrl := set_pathname "/sign-in" (nextUrl dashboard_request);
         cookies := ∅ |} = Ok response' /\
    kind response' = PassThrough forwarded.
Proof.
  assert (updateSession anonymous configured dashboard_request
    = Ok (NextResponse_redirect
            (set_pathname "/sign-in" (nextUrl dashboard_request)))) as E
    by (vm_compute; reflexivity).
  split; [exact E|].
  exact (proj2 (proj2 (redirect_is_let_through anonymous configured
                         dashboard_request _ _ E eq_refl))
           {| nextUrl := set_pathname "/sign-in" (nextUrl dashboard_request);
              cookies := ∅ |} eq_refl).
Defined.

Lemma request_cookies_are_forwarded_witness :
  exists response forwarded,
    updateSession refreshing configured stale_request = Ok response /\
    kind response = PassThrough forwarded /\
    forwarded !! "theme" = Some "dark" /\
    is_Some (forwarded !! "sb-token").
Proof.
  assert (getSupabaseKeys configured
    = Ok {| publicSupabaseUrl := Some "https://abc.supabase.co";
            publicSupabaseAnonKey := Some "anon-key" |}) as Hk
    by (vm_compute; reflexivity).
  assert (stale_request.(cookies) !! "theme" = Some "dark") as Ht
    by (vm_compute; reflexivity).
  assert (is_Some (stale_request.(cookies) !! "sb-token")) as Hs
    by (exists "stale"; vm_compute; reflexivity).
  destruct (updateSession refreshing configured stale_request)
    as [response|] eqn:E; [|vm_compute in E; discriminate E].
  destruct (kind response) as [forwarded|] eqn:K.
  - destruct (request_cookies_are_forwarded refreshing configured _
                stale_request response forwarded Hk E K) as [Hn Hv].
    exists response, forwarded. split; [reflexivity|]. split; [exact K|]. split.
    + rewrite <- Ht. apply Hv. repeat constructor.
      unfold names. simpl. intros H%list_elem_of_singleton. discriminate.
    + now apply Hn.
  - exfalso. revert K. injection E as <-. vm_compute. discriminate.
Defined.

End SupabaseProperties.
